(** * mhcnames: the key-normalizing dictionary and allele-group rendering

    A shallow embedding of [mhcnames/normalizing_dictionary.py] and
    [mhcnames/allele_group.py] (Python 3), with the properties stated about
    them.

    Conventions of the embedding.
    - Python objects are values of [pyval]: [None], integers, strings,
      tuples, lists and sets.  Strings are ASCII text ([Stdlib]'s [string]);
      [str.upper] and [str.strip] are modelled on that range, where they map
      [a-z] to [A-Z] and strip the code points 9-13, 28-31 and 32.
    - A [dict] is an association list in insertion order with unique keys,
      as Python 3.7+ iterates it.  A [set] is a duplicate-free list; the
      order of the list stands for the iteration order of the set, which is
      what [list(ks)[0]] observes.
    - Exceptions are values of [exn]; an operation returns a [result].
      Methods of [NormalizingDictionary] run in a state-and-exception monad
      over the object's fields, so that what an operation has written
      before it raised stays written.
    - A callable argument ([normalize_fn], [default_value_fn], the [fn] of
      [map_values] and [map_keys]) is a total function.
    - [update] is embedded for a plain [dict] argument.  [__str__],
      [__repr__] and the two [to_dict] are not embedded; nothing below
      depends on them. *)

From Stdlib Require Import ZArith List String Ascii Bool Lia DecimalString.
Import ListNotations.

Local Open Scope list_scope.
Local Open Scope string_scope.

(* ================================================================== *)
(** ** Python values, exceptions and results *)

#[warnings="-register-all"]
Inductive pyval : Type :=
| PyNone
| PyInt (z : Z)
| PyStr (s : string)
| PyTuple (xs : list pyval)
| PyList (xs : list pyval)
| PySet (xs : list pyval).

Inductive exn : Type :=
| KeyError (k : pyval)
| ValueError (msg : string)
| TypeError (msg : string)
| AttributeError (msg : string)
| IndexError (msg : string)
| AssertionError.

Inductive result (A : Type) : Type :=
| Ok (a : A)
| Raise (e : exn).

Arguments Ok {A} a.
Arguments Raise {A} e.

Definition rbind {A B} (r : result A) (f : A -> result B) : result B :=
  match r with
  | Ok a => f a
  | Raise e => Raise e
  end.

(** Structural induction on [pyval] that also reaches below the lists. *)
Section PyvalInd.
Variable P : pyval -> Prop.
Hypothesis HNone : P PyNone.
Hypothesis HInt : forall z, P (PyInt z).
Hypothesis HStr : forall s, P (PyStr s).
Hypothesis HTuple : forall xs, Forall P xs -> P (PyTuple xs).
Hypothesis HList : forall xs, Forall P xs -> P (PyList xs).
Hypothesis HSet : forall xs, Forall P xs -> P (PySet xs).

Fixpoint pyval_nested_ind (v : pyval) : P v :=
  let all :=
    (fix all (xs : list pyval) : Forall P xs :=
       match xs with
       | [] => Forall_nil P
       | x :: xs' => Forall_cons x (pyval_nested_ind x) (all xs')
       end) in
  match v with
  | PyNone => HNone
  | PyInt z => HInt z
  | PyStr s => HStr s
  | PyTuple xs => HTuple xs (all xs)
  | PyList xs => HList xs (all xs)
  | PySet xs => HSet xs (all xs)
  end.
End PyvalInd.

(** [==] on the values that can be dictionary keys or set members. *)
Fixpoint pyval_eqb (a b : pyval) : bool :=
  let list_eqb :=
    (fix list_eqb (xs ys : list pyval) : bool :=
       match xs, ys with
       | [], [] => true
       | x :: xs', y :: ys' => pyval_eqb x y && list_eqb xs' ys'
       | _, _ => false
       end) in
  match a, b with
  | PyNone, PyNone => true
  | PyInt x, PyInt y => Z.eqb x y
  | PyStr x, PyStr y => String.eqb x y
  | PyTuple xs, PyTuple ys => list_eqb xs ys
  | PyList xs, PyList ys => list_eqb xs ys
  | PySet xs, PySet ys => list_eqb xs ys
  | _, _ => false
  end.

(** The comparison [pyval_eqb] makes of the elements of two sequences. *)
Definition pyval_list_eqb : list pyval -> list pyval -> bool :=
  fix list_eqb (xs ys : list pyval) : bool :=
    match xs, ys with
    | [], [] => true
    | x :: xs', y :: ys' => pyval_eqb x y && list_eqb xs' ys'
    | _, _ => false
    end.

(** [hash(v)] raises [TypeError] on a list or a set, and on a tuple that
    holds one; the message names the first offending type. *)
Fixpoint unhashable_type (v : pyval) : option string :=
  let first :=
    (fix first (xs : list pyval) : option string :=
       match xs with
       | [] => None
       | x :: xs' =>
           match unhashable_type x with
           | Some t => Some t
           | None => first xs'
           end
       end) in
  match v with
  | PyNone | PyInt _ | PyStr _ => None
  | PyTuple xs => first xs
  | PyList _ => Some "list"
  | PySet _ => Some "set"
  end.

Definition hashable (v : pyval) : bool :=
  match unhashable_type v with
  | None => true
  | Some _ => false
  end.

Definition check_hashable (v : pyval) : result unit :=
  match unhashable_type v with
  | None => Ok tt
  | Some t => Raise (TypeError ("unhashable type: '" ++ t ++ "'"))
  end.

(* ================================================================== *)
(** ** Strings *)

Definition is_space (c : ascii) : bool :=
  let n := nat_of_ascii c in
  (((9 <=? n) && (n <=? 13)) || ((28 <=? n) && (n <=? 32)))%nat.

Definition upper_char (c : ascii) : ascii :=
  let n := nat_of_ascii c in
  if ((97 <=? n) && (n <=? 122))%nat then ascii_of_nat (n - 32) else c.

(** [c in s] for a one-character [c]. *)
Fixpoint str_contains (c : ascii) (s : string) : bool :=
  match s with
  | EmptyString => false
  | String a s' => Ascii.eqb a c || str_contains c s'
  end.

(** [s.replace(c, '')] for a one-character [c]. *)
Fixpoint str_remove (c : ascii) (s : string) : string :=
  match s with
  | EmptyString => EmptyString
  | String a s' =>
      if Ascii.eqb a c then str_remove c s' else String a (str_remove c s')
  end.

Fixpoint upper (s : string) : string :=
  match s with
  | EmptyString => EmptyString
  | String a s' => String (upper_char a) (upper s')
  end.

Fixpoint lstrip (s : string) : string :=
  match s with
  | EmptyString => EmptyString
  | String a s' => if is_space a then lstrip s' else s
  end.

Fixpoint rstrip (s : string) : string :=
  match s with
  | EmptyString => EmptyString
  | String a s' =>
      match rstrip s' with
      | EmptyString => if is_space a then EmptyString else String a EmptyString
      | r => String a r
      end
  end.

Definition strip (s : string) : string := rstrip (lstrip s).

Fixpoint str_filter (keep : ascii -> bool) (s : string) : string :=
  match s with
  | EmptyString => EmptyString
  | String a s' =>
      if keep a then String a (str_filter keep s') else str_filter keep s'
  end.

Fixpoint str_forallb (p : ascii -> bool) (s : string) : bool :=
  match s with
  | EmptyString => true
  | String a s' => p a && str_forallb p s'
  end.


Definition space : ascii := " "%char.

(* ================================================================== *)
(** ** normalize_string *)

(** [for char in chars_to_remove: if char in name: name = name.replace(char, '')] *)
Fixpoint remove_chars (chars_to_remove : string) (name : string) : string :=
  match chars_to_remove with
  | EmptyString => name
  | String char rest =>
      remove_chars rest
        (if str_contains char name then str_remove char name else name)
  end.

Definition normalize_string (name : pyval) (chars_to_remove : string) : pyval :=
  match name with
  | PyStr name =>
      let name := if str_contains space name then strip name else name in
      let name := upper name in
      PyStr (remove_chars chars_to_remove name)
  | _ => name
  end.

Definition default_chars_to_remove : string := "-_'".

Definition normalize (name : pyval) : pyval :=
  normalize_string name default_chars_to_remove.

(* ================================================================== *)
(** ** str(), repr() and the % operator *)

Definition hex_digit (n : nat) : ascii :=
  if (n <? 10)%nat then ascii_of_nat (48 + n) else ascii_of_nat (87 + n).

Definition backslash : ascii := ascii_of_nat 92.

Definition repr_char (quote c : ascii) : string :=
  let n := nat_of_ascii c in
  if Ascii.eqb c quote || Ascii.eqb c backslash
  then String backslash (String c EmptyString)
  else if (n =? 9)%nat then "\t"
  else if (n =? 10)%nat then "\n"
  else if (n =? 13)%nat then "\r"
  else if ((n <? 32) || (126 <? n))%nat
       then String backslash (String "x"%char
              (String (hex_digit (n / 16))
                 (String (hex_digit (n mod 16)) EmptyString)))
  else String c EmptyString.

Fixpoint repr_chars (quote : ascii) (s : string) : string :=
  match s with
  | EmptyString => EmptyString
  | String c s' => repr_char quote c ++ repr_chars quote s'
  end.

Definition repr_str (s : string) : string :=
  let dq := ascii_of_nat 34 in
  let quote :=
    if str_contains "'"%char s && negb (str_contains dq s) then dq
    else "'"%char in
  String quote (repr_chars quote s) ++ String quote EmptyString.

Fixpoint py_repr (v : pyval) : string :=
  let join :=
    (fix join (xs : list pyval) : string :=
       match xs with
       | [] => EmptyString
       | [x] => py_repr x
       | x :: xs' => py_repr x ++ ", " ++ join xs'
       end) in
  match v with
  | PyNone => "None"
  | PyInt z => NilZero.string_of_int (Z.to_int z)
  | PyStr s => repr_str s
  | PyTuple [x] => "(" ++ py_repr x ++ ",)"
  | PyTuple xs => "(" ++ join xs ++ ")"
  | PyList xs => "[" ++ join xs ++ "]"
  | PySet [] => "set()"
  | PySet xs => "{" ++ join xs ++ "}"
  end.

Definition py_str (v : pyval) : string :=
  match v with
  | PyStr s => s
  | _ => py_repr v
  end.

(** [fmt % args] for a tuple [args], with the conversions the sources use
    ([%s] and the literal [%%]). *)
Fixpoint py_format (fmt : string) (args : list pyval) : result string :=
  match fmt with
  | EmptyString =>
      match args with
      | [] => Ok EmptyString
      | _ :: _ =>
          Raise (TypeError "not all arguments converted during string formatting")
      end
  | String "%"%char EmptyString => Raise (ValueError "incomplete format")
  | String "%"%char (String "s"%char rest) =>
      match args with
      | [] => Raise (TypeError "not enough arguments for format string")
      | a :: args' => rbind (py_format rest args') (fun r => Ok (py_str a ++ r))
      end
  | String "%"%char (String "%"%char rest) =>
      rbind (py_format rest args) (fun r => Ok (String "%"%char r))
  | String "%"%char (String _ _) =>
      Raise (ValueError "unsupported format character")
  | String c rest => rbind (py_format rest args) (fun r => Ok (String c r))
  end.

(* ================================================================== *)
(** ** dict and set *)

Definition pyset := list pyval.

Definition set_mem (k : pyval) (s : pyset) : bool := existsb (pyval_eqb k) s.

Definition set_add (k : pyval) (s : pyset) : pyset :=
  if set_mem k s then s else (s ++ [k])%list.

Section Dict.
Context {V : Type}.

Definition dict := list (pyval * V).

Fixpoint dict_get (k : pyval) (d : dict) : option V :=
  match d with
  | [] => None
  | (k', v) :: d' => if pyval_eqb k' k then Some v else dict_get k d'
  end.

Definition dict_mem (k : pyval) (d : dict) : bool :=
  match dict_get k d with
  | Some _ => true
  | None => false
  end.

(** An existing key keeps its place; a new one goes last. *)
Fixpoint dict_set (k : pyval) (v : V) (d : dict) : dict :=
  match d with
  | [] => [(k, v)]
  | (k', v') :: d' =>
      if pyval_eqb k' k then (k', v) :: d' else (k', v') :: dict_set k v d'
  end.

Definition dict_keys (d : dict) : list pyval := map fst d.
Definition dict_values (d : dict) : list V := map snd d.

(** [k in d] *)
Definition py_dict_contains (k : pyval) (d : dict) : result bool :=
  rbind (check_hashable k) (fun _ => Ok (dict_mem k d)).

(** [d[k]] *)
Definition py_dict_getitem (k : pyval) (d : dict) : result V :=
  rbind (check_hashable k) (fun _ =>
    match dict_get k d with
    | Some v => Ok v
    | None => Raise (KeyError k)
    end).

(** [d.get(k)], [None] read as [Datatypes.None] *)
Definition py_dict_get (k : pyval) (d : dict) : result (option V) :=
  rbind (check_hashable k) (fun _ => Ok (dict_get k d)).

(** [d[k] = v] *)
Definition py_dict_setitem (k : pyval) (v : V) (d : dict) : result dict :=
  rbind (check_hashable k) (fun _ => Ok (dict_set k v d)).
End Dict.

Arguments dict V : clear implicits.

(** [s.add(k)] *)
Definition py_set_add (k : pyval) (s : pyset) : result pyset :=
  rbind (check_hashable k) (fun _ => Ok (set_add k s)).

Definition is_not_None (v : pyval) : bool :=
  match v with
  | PyNone => false
  | _ => true
  end.

(* ================================================================== *)
(** ** class NormalizingDictionary *)

Module NormalizingDictionary.

(** The fields of an instance.  [normalized_to_original_keys_dict] is a
    [defaultdict(set)]; [default_value_fn] is [None] or a callable. *)
Record t : Type := mk {
  store : dict pyval;
  original_to_normalized_key_dict : dict pyval;
  normalized_to_original_keys_dict : dict pyset;
  normalize_fn : pyval -> pyval;
  default_value_fn : option (unit -> pyval)
}.

(** A method body: it reads and writes [self] and returns or raises. *)
Definition M (A : Type) : Type := t -> result A * t.

Definition ret {A} (a : A) : M A := fun self => (Ok a, self).

Definition raise {A} (e : exn) : M A := fun self => (Raise e, self).

Definition bind {A B} (m : M A) (f : A -> M B) : M B :=
  fun self =>
    match m self with
    | (Ok a, self') => f a self'
    | (Raise e, self') => (Raise e, self')
    end.

Declare Scope py_scope.
Delimit Scope py_scope with py.
Notation "x <- m ;; k" := (bind m (fun x => k))
  (at level 61, m at next level, right associativity) : py_scope.
Notation "m ;; k" := (bind m (fun _ => k))
  (at level 61, right associativity) : py_scope.
Local Open Scope py_scope.

Definition lift {A} (r : result A) : M A := fun self => (r, self).

Definition read {A} (field : t -> A) : M A := fun self => (Ok (field self), self).

Definition py_assert (b : bool) : M unit :=
  if b then ret tt else raise AssertionError.

Definition set_store (s : dict pyval) : M unit :=
  fun self =>
    (Ok tt, mk s (original_to_normalized_key_dict self)
               (normalized_to_original_keys_dict self)
               (normalize_fn self) (default_value_fn self)).

Definition set_original_to_normalized_key_dict (o : dict pyval) : M unit :=
  fun self =>
    (Ok tt, mk (store self) o (normalized_to_original_keys_dict self)
               (normalize_fn self) (default_value_fn self)).

Definition set_normalized_to_original_keys_dict (n : dict pyset) : M unit :=
  fun self =>
    (Ok tt, mk (store self) (original_to_normalized_key_dict self) n
               (normalize_fn self) (default_value_fn self)).

(** [self.normalized_to_original_keys_dict[k]]: a missing key is first
    given a new empty set. *)
Definition defaultdict_getitem (k : pyval) : M pyset :=
  n2o <- read normalized_to_original_keys_dict ;;
  lift (check_hashable k) ;;
  match dict_get k n2o with
  | Some ks => ret ks
  | None => set_normalized_to_original_keys_dict (dict_set k [] n2o) ;; ret []
  end.

(** [self.normalized_to_original_keys_dict[k_normalized].add(k)]: the set
    found (or made) under [k_normalized] is updated in place. *)
Definition defaultdict_add (k_normalized k : pyval) : M unit :=
  ks <- defaultdict_getitem k_normalized ;;
  ks' <- lift (py_set_add k ks) ;;
  n2o <- read normalized_to_original_keys_dict ;;
  set_normalized_to_original_keys_dict (dict_set k_normalized ks' n2o).

Definition __setitem__ (k v : pyval) : M unit :=
  py_assert (is_not_None k) ;;
  py_assert (is_not_None v) ;;
  fn <- read normalize_fn ;;
  let k_normalized := fn k in
  o2n <- read original_to_normalized_key_dict ;;
  o2n' <- lift (py_dict_setitem k k_normalized o2n) ;;
  set_original_to_normalized_key_dict o2n' ;;
  defaultdict_add k_normalized k ;;
  st <- read store ;;
  st' <- lift (py_dict_setitem k_normalized v st) ;;
  set_store st'.

Fixpoint update_pairs (pairs : list (pyval * pyval)) : M unit :=
  match pairs with
  | [] => ret tt
  | (k, v) :: pairs' => __setitem__ k v ;; update_pairs pairs'
  end.

Definition empty (normalize_fn : pyval -> pyval)
                 (default_value_fn : option (unit -> pyval)) : t :=
  mk [] [] [] normalize_fn default_value_fn.

(** The constructor: an empty instance, then [self.update_pairs(pairs)]. *)
Definition __init__ (pairs : list (pyval * pyval))
                    (normalize_fn : pyval -> pyval)
                    (default_value_fn : option (unit -> pyval)) : result t :=
  match update_pairs pairs (empty normalize_fn default_value_fn) with
  | (Ok _, self) => Ok self
  | (Raise e, _) => Raise e
  end.

Definition __getitem__ (k : pyval) : M pyval :=
  fn <- read normalize_fn ;;
  let k_normalized := fn k in
  st <- read store ;;
  present <- lift (py_dict_contains k_normalized st) ;;
  (if negb present then
     dvf <- read default_value_fn ;;
     match dvf with
     | Some default_value_fn =>
         st' <- lift (py_dict_setitem k_normalized (default_value_fn tt) st) ;;
         set_store st'
     | None => raise (KeyError k)
     end
   else ret tt) ;;
  st <- read store ;;
  lift (py_dict_getitem k_normalized st).

Definition __contains__ (k : pyval) : M bool :=
  fn <- read normalize_fn ;;
  let k_normalized := fn k in
  st <- read store ;;
  lift (py_dict_contains k_normalized st).

Definition original_keys (k : pyval) : M pyset :=
  fn <- read normalize_fn ;;
  let k_normalized := fn k in
  n2o <- read normalized_to_original_keys_dict ;;
  original_keys <- lift (py_dict_get k_normalized n2o) ;;
  match original_keys with
  | None => ret []
  | Some original_keys => ret original_keys
  end.

Definition original_key (k : pyval) : M pyval :=
  ks <- original_keys k ;;
  if (List.length ks =? 0)%nat then raise (KeyError k)
  else if (1 <? List.length ks)%nat then
    msg <- lift (py_format "Key '%s' matches multiple entries: %s" [PyList ks]) ;;
    raise (ValueError msg)
  else
    match ks with
    | k0 :: _ => ret k0
    | [] => raise (IndexError "list index out of range")
    end.

Definition get (k : pyval) (v : option pyval) : M (option pyval) :=
  fn <- read normalize_fn ;;
  st <- read store ;;
  found <- lift (py_dict_get (fn k) st) ;;
  match found with
  | Some x => ret (Some x)
  | None => ret v
  end.

Definition keys : M (list pyval) :=
  o2n <- read original_to_normalized_key_dict ;; ret (dict_keys o2n).

Definition normalized_keys : M (list pyval) :=
  st <- read store ;; ret (dict_keys st).

Definition values : M (list pyval) :=
  st <- read store ;; ret (dict_values st).

Definition __len__ : M nat :=
  st <- read store ;; ret (List.length st).

Fixpoint mapM {A B} (f : A -> M B) (xs : list A) : M (list B) :=
  match xs with
  | [] => ret []
  | x :: xs' => y <- f x ;; ys <- mapM f xs' ;; ret (y :: ys)
  end.

Definition key_sets_aligned_with_values : M (list pyset) :=
  nks <- normalized_keys ;;
  mapM defaultdict_getitem nks.

(** One step of the generator: [assert len(ks) > 0; yield list(ks)[0]]. *)
Definition first_key (ks : pyset) : result pyval :=
  match ks with
  | [] => Raise AssertionError
  | k :: _ => Ok k
  end.

(** The generator, run by its consumer: the list of key sets is built
    when the first element is asked for, then each element is yielded or
    its assertion fails; a consumer sees the elements up to the first
    failure. *)
Definition keys_aligned_with_values : M (list (result pyval)) :=
  list_of_key_sets <- key_sets_aligned_with_values ;;
  ret (map first_key list_of_key_sets).

(** [zip(self.keys_aligned_with_values(), self.values())], consumed. *)
Definition items : M (list (result (pyval * pyval))) :=
  ks <- keys_aligned_with_values ;;
  vs <- values ;;
  ret (map (fun kv => rbind (fst kv) (fun k => Ok (k, snd kv))) (combine ks vs)).

(** A list comprehension over a consumed generator. *)
Fixpoint comprehension {A B} (f : A -> B) (xs : list (result A))
  : result (list B) :=
  match xs with
  | [] => Ok []
  | Raise e :: _ => Raise e
  | Ok x :: xs' => rbind (comprehension f xs') (fun ys => Ok (f x :: ys))
  end.

Definition map_values (fn : pyval -> pyval) : M t :=
  its <- items ;;
  pairs <- lift (comprehension (fun kv => (fst kv, fn (snd kv))) its) ;;
  nf <- read normalize_fn ;;
  dvf <- read default_value_fn ;;
  lift (__init__ pairs nf dvf).

Definition map_keys (fn : pyval -> pyval) : M t :=
  its <- items ;;
  pairs <- lift (comprehension (fun kv => (fn (fst kv), snd kv)) its) ;;
  nf <- read normalize_fn ;;
  dvf <- read default_value_fn ;;
  lift (__init__ pairs nf dvf).

Definition py_set : unit -> pyval := fun _ => PySet [].

(** [result[vi].add(k)] on the dictionary being built: the object that
    [__getitem__] returns is the one held by the store, so the addition
    shows in the store. *)
Definition getitem_add (vi k : pyval) : M unit :=
  found <- __getitem__ vi ;;
  match found with
  | PySet xs =>
      xs' <- lift (py_set_add k xs) ;;
      fn <- read normalize_fn ;;
      st <- read store ;;
      set_store (dict_set (fn vi) (PySet xs') st)
  | PyList _ => raise (AttributeError "'list' object has no attribute 'add'")
  | PyTuple _ => raise (AttributeError "'tuple' object has no attribute 'add'")
  | PyStr _ => raise (AttributeError "'str' object has no attribute 'add'")
  | PyInt _ => raise (AttributeError "'int' object has no attribute 'add'")
  | PyNone => raise (AttributeError "'NoneType' object has no attribute 'add'")
  end.

Definition values_of (v : pyval) : list pyval :=
  match v with
  | PyList xs | PyTuple xs | PySet xs => xs
  | _ => [v]
  end.

Fixpoint add_all (values : list pyval) (k : pyval) : M unit :=
  match values with
  | [] => ret tt
  | vi :: values' => getitem_add vi k ;; add_all values' k
  end.

(** The body of [for (k, v) in self.items(): ...], run on [result]. *)
Fixpoint invert_loop (its : list (result (pyval * pyval))) : M unit :=
  match its with
  | [] => ret tt
  | Raise e :: _ => raise e
  | Ok (k, v) :: its' => add_all (values_of v) k ;; invert_loop its'
  end.

Definition invert : M t :=
  nf <- read normalize_fn ;;
  result <- lift (__init__ [] nf (Some py_set)) ;;
  its <- items ;;
  match invert_loop its result with
  | (Ok _, result') => ret result'
  | (Raise e, _) => raise e
  end.

(** [self.update(other_dict)] for a plain [dict], whose [items()] are its
    pairs in insertion order. *)
Definition update (other_dict : dict pyval) : M unit :=
  update_pairs other_dict.

Definition __iter__ : M (list (result pyval)) :=
  keys_aligned_with_values.

(** The assertions of [from_dict], run on the instance just built. *)
Definition from_dict_checks (d : dict pyval) : M unit :=
  if negb (List.length d =? 0)%nat then
    n <- __len__ ;;
    py_assert (0 <? n)%nat ;;
    st <- read store ;;
    py_assert (0 <? List.length st)%nat ;;
    o2n <- read original_to_normalized_key_dict ;;
    py_assert (0 <? List.length o2n)%nat ;;
    n2o <- read normalized_to_original_keys_dict ;;
    py_assert (0 <? List.length n2o)%nat
  else ret tt.

Definition from_dict (d : dict pyval)
                     (normalize_fn : pyval -> pyval)
                     (default_value_fn : option (unit -> pyval)) : result t :=
  rbind (__init__ d normalize_fn default_value_fn) (fun result =>
    match from_dict_checks d result with
    | (Ok _, result') => Ok result'
    | (Raise e, _) => Raise e
    end).

End NormalizingDictionary.

(* ================================================================== *)
(** ** class Locus and class AlleleGroup *)

Module Locus.

(** Modelled from the spec: the class [Locus] of [mhcnames/locus.py],
    which is not among the sources.  A locus has a species prefix and a
    gene name; [normalized_string] renders species, hyphen, gene when the
    species is included and the gene alone otherwise; [compact_string]
    renders the same content with the separator removed. *)
Record t : Type := mk {
  species_prefix : string;
  gene_name : string
}.

(** Modelled from the spec: [Locus.normalized_string], species, hyphen and
    gene when the species is included, else the gene. *)
Definition normalized_string (self : t) (include_species : bool)
  : result string :=
  if include_species
  then py_format "%s-%s" [PyStr (species_prefix self); PyStr (gene_name self)]
  else Ok (gene_name self).

(** Modelled from the spec: [Locus.compact_string], the same content with
    the separator removed. *)
Definition compact_string (self : t) (include_species : bool)
  : result string :=
  if include_species
  then py_format "%s%s" [PyStr (species_prefix self); PyStr (gene_name self)]
  else Ok (gene_name self).

(** A method reached through the class, [Locus.method(...)], is a plain
    function of [(self, include_species=True)]: the caller has to pass
    the instance as the one positional argument. *)
Definition call (name : string) (method : t -> bool -> result string)
                (positional : list t) (include_species : bool)
  : result string :=
  match positional with
  | [] =>
      Raise (TypeError
               (name ++ "() missing 1 required positional argument: 'self'"))
  | [self] => method self include_species
  | _ :: _ :: _ =>
      Raise (TypeError
               (name ++ "() got multiple values for argument 'include_species'"))
  end.

End Locus.

Module AlleleGroup.

Record t : Type := mk {
  species_prefix : string;
  gene_name : string;
  group_id : string
}.

(** An allele group is a locus: the inherited methods read its first two
    fields. *)
Definition as_locus (self : t) : Locus.t :=
  Locus.mk (species_prefix self) (gene_name self).

Definition normalized_string (self : t) (include_species : bool)
  : result string :=
  rbind (Locus.call "normalized_string" Locus.normalized_string
           [as_locus self] include_species)
    (fun locus => py_format "%s*%s" [PyStr locus; PyStr (group_id self)]).

Definition compact_string (self : t) (include_species : bool)
  : result string :=
  rbind (Locus.call "compact_string" Locus.compact_string
           [] include_species)
    (fun locus => py_format "%s%s" [PyStr locus; PyStr (group_id self)]).

Definition to_allele_group (self : t) : t :=
  mk (species_prefix self) (gene_name self) (group_id self).

End AlleleGroup.

(* ================================================================== *)
(** ** States reached by the methods *)

Module ND := NormalizingDictionary.

(** The original keys already recorded under a normalized key. *)
Definition recorded (self : ND.t) (k_normalized : pyval) : pyset :=
  match dict_get k_normalized (ND.normalized_to_original_keys_dict self) with
  | Some ks => ks
  | None => []
  end.

(** The instance an insertion leaves when nothing raises. *)
Definition inserted (self : ND.t) (k v : pyval) : ND.t :=
  let k_normalized := ND.normalize_fn self k in
  ND.mk (dict_set k_normalized v (ND.store self))
        (dict_set k k_normalized (ND.original_to_normalized_key_dict self))
        (dict_set k_normalized (set_add k (recorded self k_normalized))
           (ND.normalized_to_original_keys_dict self))
        (ND.normalize_fn self) (ND.default_value_fn self).

(** The instance a lookup leaves when it has stored a default value. *)
Definition defaulted (self : ND.t) (k : pyval) (v : pyval) : ND.t :=
  ND.mk (dict_set (ND.normalize_fn self k) v (ND.store self))
        (ND.original_to_normalized_key_dict self)
        (ND.normalized_to_original_keys_dict self)
        (ND.normalize_fn self) (ND.default_value_fn self).

(** Unfolds a method body down to the dictionary operations. *)
Ltac run_method :=
  unfold ND.__setitem__, ND.__getitem__, ND.__contains__, ND.original_keys,
    ND.original_key, ND.defaultdict_add, ND.defaultdict_getitem,
    ND.py_assert, ND.set_store, ND.set_original_to_normalized_key_dict,
    ND.set_normalized_to_original_keys_dict, ND.bind, ND.read, ND.lift,
    ND.ret, ND.raise, py_dict_setitem, py_dict_getitem, py_dict_contains,
    py_dict_get, py_set_add, rbind;
  cbn [ND.store ND.original_to_normalized_key_dict
       ND.normalized_to_original_keys_dict ND.normalize_fn
       ND.default_value_fn fst snd].

(* ================================================================== *)
(** ** The normalizer as the specification words it *)


(* ================================================================== *)
(** ** Predicates on dictionaries *)

Fixpoint unique_keys {V} (d : dict V) : bool :=
  match d with
  | [] => true
  | (k, _) :: d' => negb (dict_mem k d') && unique_keys d'
  end.

(** The number of slots of [d] held by the key [k]. *)
Definition dict_count {V} (k : pyval) (d : dict V) : nat :=
  List.length (filter (fun kv => pyval_eqb (fst kv) k) d).

(** Every normalized key of the value store has at least one original key
    in [normalized_to_original_keys_dict]: what [keys_aligned_with_values]
    asserts of each key set. *)
Definition has_original_keys (n2o : dict pyset) (k_normalized : pyval) : bool :=
  match dict_get k_normalized n2o with
  | Some (_ :: _) => true
  | _ => false
  end.

Definition store_keys_have_original_keys (self : NormalizingDictionary.t)
  : bool :=
  forallb
    (has_original_keys (NormalizingDictionary.normalized_to_original_keys_dict self))
    (dict_keys (NormalizingDictionary.store self)).

(** What [invert] leaves in the instance it builds: values under hashable
    keys, and both original-key indexes empty. *)
Definition built_by_lookups_only (self : NormalizingDictionary.t) : Prop :=
  NormalizingDictionary.original_to_normalized_key_dict self = []
  /\ NormalizingDictionary.normalized_to_original_keys_dict self = []
  /\ forallb hashable (dict_keys (NormalizingDictionary.store self)) = true.

(** No key of the [defaultdict] has an original key. *)
Definition all_empty (n2o : dict pyset) : Prop :=
  Forall (fun kv => snd kv = @nil pyval) n2o.

(* ================================================================== *)
(** ** Example containers *)

(** What the constructor builds from the one pair [("hla-a", 1)] with the
    default normalizer, and what [invert] returns for it. *)
Definition example_table : NormalizingDictionary.t :=
  NormalizingDictionary.mk
    [(PyStr "HLAA", PyInt 1)]
    [(PyStr "hla-a", PyStr "HLAA")]
    [(PyStr "HLAA", [PyStr "hla-a"])]
    normalize None.

Definition example_inverted : NormalizingDictionary.t :=
  NormalizingDictionary.mk
    [(PyInt 1, PySet [PyStr "hla-a"])] [] []
    normalize (Some NormalizingDictionary.py_set).

Definition three_spellings : list (pyval * pyval) :=
  [(PyStr "hla-a", PyInt 1); (PyStr "HLA_A", PyInt 2); (PyStr "hla a", PyInt 3)].

(** What the constructor builds from the first two of them, and from all
    three. *)
Definition example_two_spellings : NormalizingDictionary.t :=
  NormalizingDictionary.mk
    [(PyStr "HLAA", PyInt 2)]
    [(PyStr "hla-a", PyStr "HLAA"); (PyStr "HLA_A", PyStr "HLAA")]
    [(PyStr "HLAA", [PyStr "hla-a"; PyStr "HLA_A"])]
    normalize None.

Definition example_three_spellings : NormalizingDictionary.t :=
  NormalizingDictionary.mk
    [(PyStr "HLAA", PyInt 2); (PyStr "HLA A", PyInt 3)]
    [(PyStr "hla-a", PyStr "HLAA"); (PyStr "HLA_A", PyStr "HLAA");
     (PyStr "hla a", PyStr "HLA A")]
    [(PyStr "HLAA", [PyStr "hla-a"; PyStr "HLA_A"]);
     (PyStr "HLA A", [PyStr "hla a"])]
    normalize None.

(** What [map_keys] returns for the three spellings when every key is
    sent to ["x"]. *)
Definition example_merged : NormalizingDictionary.t :=
  NormalizingDictionary.mk
    [(PyStr "X", PyInt 3)]
    [(PyStr "x", PyStr "X")]
    [(PyStr "X", [PyStr "x"])]
    normalize None.

(* ================================================================== *)
(** ** Containers built by insertions *)

(** What [__setitem__] accepts: a key and a value that are not [None], a
    hashable key, and a hashable normalized key. *)
Definition insertable (nf : pyval -> pyval) (kv : pyval * pyval) : bool :=
  is_not_None (fst kv) && is_not_None (snd kv)
  && hashable (fst kv) && hashable (nf (fst kv)).

(** The instance that the insertions of [pairs], in order, leave. *)
Definition inserted_all (pairs : list (pyval * pyval)) (self : ND.t) : ND.t :=
  fold_left (fun s kv => inserted s (fst kv) (snd kv)) pairs self.

(** What the constructor returns for insertable [pairs]. *)
Definition built (nf : pyval -> pyval) (dvf : option (unit -> pyval))
                 (pairs : list (pyval * pyval)) : ND.t :=
  inserted_all pairs (ND.empty nf dvf).

(** The value of the last of [pairs] whose key normalizes to [kn]. *)
Definition last_value (nf : pyval -> pyval) (kn : pyval)
                      (pairs : list (pyval * pyval)) : option pyval :=
  fold_left (fun found kv => if pyval_eqb (nf (fst kv)) kn then Some (snd kv)
                             else found)
    pairs None.

(** [k] is the key of one of [pairs]. *)
Definition given (pairs : list (pyval * pyval)) (k : pyval) : Prop :=
  In k (map fst pairs).

(** An item of a container beside the store entry it comes from: the
    entry's value, under a key of the entry's key set. *)
Definition item_of (self : ND.t) (entry item : pyval * pyval) : Prop :=
  snd item = snd entry /\ In (fst item) (recorded self (fst entry)).

(** The key that [keys_aligned_with_values] yields for a normalized key. *)
Definition representative (self : ND.t) (kn : pyval) : result pyval :=
  ND.first_key (recorded self kn).

(** The additions [result[vi].add(k)] that [invert] makes for the items
    [its], in the order it makes them. *)
Definition additions (its : list (pyval * pyval)) : list (pyval * pyval) :=
  flat_map (fun kv => map (fun vi => (vi, fst kv)) (ND.values_of (snd kv)))
    its.

(** The store of an inverted container after the additions [adds]: under
    each normalized key a set, without repetition, of the keys added for
    an element of that normalized form, and nothing under the others. *)
Definition files (nf : pyval -> pyval) (adds : list (pyval * pyval))
                 (st : dict pyval) : Prop :=
  forall x,
    match dict_get x st with
    | Some (PySet ks) =>
        NoDup ks /\ forall k, In k ks <-> exists vi, In (vi, k) adds /\ nf vi = x
    | Some _ => False
    | None => forall vi k, In (vi, k) adds -> nf vi <> x
    end.

(** What the loop of [invert] keeps of the container it fills. *)
Definition filling nf adds (res : ND.t) : Prop :=
  ND.normalize_fn res = nf
  /\ ND.default_value_fn res = Some ND.py_set
  /\ files nf adds (ND.store res).

(** The elements of the stored values that [invert] turns into keys,
    each with the key it is filed under. *)
Definition inverse_entry (nf : pyval -> pyval)
                         (its : list (pyval * pyval)) (k x : pyval) : Prop :=
  exists v vi, In (k, v) its /\ In vi (ND.values_of v) /\ nf vi = x.

(* ================================================================== *)
(** * Properties *)

(** ** Equality of values *)

Lemma pyval_list_eqb_eq (xs : list pyval) :
  Forall (fun x => forall y, pyval_eqb x y = true <-> x = y) xs ->
  forall ys, pyval_list_eqb xs ys = true <-> xs = ys.
Proof.
  induction 1 as [|x xs Hx _ IH]; intros [|y ys]; simpl;
    try (split; [discriminate | congruence]); try tauto.
  rewrite andb_true_iff, Hx, IH. split.
  - intros [-> ->]. reflexivity.
  - intros E. inversion E. auto.
Qed.

Lemma pyval_eqb_eq (a b : pyval) : pyval_eqb a b = true <-> a = b.
Proof.
  revert b. induction a using pyval_nested_ind; intros b; destruct b;
    try (simpl; split; [discriminate | congruence]).
  - simpl. tauto.
  - simpl. rewrite Z.eqb_eq. split; congruence.
  - simpl. rewrite String.eqb_eq. split; congruence.
  - change (pyval_list_eqb xs xs0 = true <-> PyTuple xs = PyTuple xs0).
    rewrite (pyval_list_eqb_eq xs H). split; congruence.
  - change (pyval_list_eqb xs xs0 = true <-> PyList xs = PyList xs0).
    rewrite (pyval_list_eqb_eq xs H). split; congruence.
  - change (pyval_list_eqb xs xs0 = true <-> PySet xs = PySet xs0).
    rewrite (pyval_list_eqb_eq xs H). split; congruence.
Qed.

Lemma pyval_eqb_refl (a : pyval) : pyval_eqb a a = true.
Proof. apply pyval_eqb_eq. reflexivity. Qed.

Lemma pyval_eqb_neq (a b : pyval) : pyval_eqb a b = false <-> a <> b.
Proof.
  rewrite <- pyval_eqb_eq. destruct (pyval_eqb a b); split; congruence.
Qed.

Lemma pyval_eqb_sym (a b : pyval) : pyval_eqb a b = pyval_eqb b a.
Proof.
  destruct (pyval_eqb a b) eqn:E.
  - apply pyval_eqb_eq in E. subst. symmetry. apply pyval_eqb_refl.
  - apply pyval_eqb_neq in E. symmetry. apply pyval_eqb_neq. congruence.
Qed.

(** ** Strings *)

Lemma str_remove_absent (c : ascii) (s : string) :
  str_contains c s = false -> str_remove c s = s.
Proof.
  induction s as [|a s IH]; simpl; [reflexivity|].
  intros H. apply orb_false_iff in H as [Ha Hs].
  rewrite Ha, IH by assumption. reflexivity.
Qed.

Lemma str_remove_is_filter (c : ascii) (s : string) :
  str_remove c s = str_filter (fun a => negb (Ascii.eqb a c)) s.
Proof.
  induction s as [|a s IH]; simpl; [reflexivity|].
  rewrite IH. destruct (Ascii.eqb a c); reflexivity.
Qed.

Lemma str_filter_ext (p q : ascii -> bool) (s : string) :
  (forall a, p a = q a) -> str_filter p s = str_filter q s.
Proof.
  intros E. induction s as [|a s IH]; simpl; [reflexivity|].
  rewrite E, IH. reflexivity.
Qed.

Lemma str_filter_twice (p q : ascii -> bool) (s : string) :
  str_filter p (str_filter q s) = str_filter (fun a => q a && p a) s.
Proof.
  induction s as [|a s IH]; simpl; [reflexivity|].
  destruct (q a); simpl; rewrite IH; reflexivity.
Qed.

Lemma str_contains_filter (c : ascii) (p : ascii -> bool) (s : string) :
  str_contains c s = false -> str_contains c (str_filter p s) = false.
Proof.
  induction s as [|a s IH]; simpl; [reflexivity|].
  intros H. apply orb_false_iff in H as [Ha Hs].
  destruct (p a); simpl; rewrite ?Ha; auto.
Qed.

Lemma str_filter_removes (p : ascii -> bool) (s : string) :
  str_forallb p (str_filter p s) = true.
Proof.
  induction s as [|a s IH]; simpl; [reflexivity|].
  destruct (p a) eqn:E; simpl; rewrite ?E; auto.
Qed.

Lemma upper_char_fixed (a : ascii) : upper_char (upper_char a) = upper_char a.
Proof. destruct a as [[] [] [] [] [] [] [] []]; reflexivity. Qed.

Lemma upper_char_space (a : ascii) :
  Ascii.eqb (upper_char a) space = Ascii.eqb a space.
Proof. destruct a as [[] [] [] [] [] [] [] []]; reflexivity. Qed.

Lemma str_contains_space_upper (s : string) :
  str_contains space (upper s) = str_contains space s.
Proof.
  induction s as [|a s IH]; simpl; [reflexivity|].
  rewrite upper_char_space, IH. reflexivity.
Qed.

Lemma upper_filter_upper (p : ascii -> bool) (s : string) :
  upper (str_filter p (upper s)) = str_filter p (upper s).
Proof.
  induction s as [|a s IH]; simpl; [reflexivity|].
  destruct (p (upper_char a)); simpl; rewrite ?upper_char_fixed, IH; reflexivity.
Qed.

(** ** The removal loop *)

Section Normalizer.
Variable chars_to_remove : string.

Lemma remove_chars_is_filter (cs name : string) :
  remove_chars cs name = str_filter (fun c => negb (str_contains c cs)) name.
Proof.
  revert name. induction cs as [|char rest IH]; intros name; simpl.
  - induction name as [|a s IHs]; simpl; [reflexivity|].
    rewrite <- IHs. reflexivity.
  - assert (E : (if str_contains char name then str_remove char name else name)
                = str_remove char name).
    { destruct (str_contains char name) eqn:C; [reflexivity|].
      symmetry. apply str_remove_absent. exact C. }
    rewrite E, IH, str_remove_is_filter, str_filter_twice.
    apply str_filter_ext. intros a.
    rewrite (Ascii.eqb_sym char a), negb_orb. reflexivity.
Qed.

(** No space in the name: the second pass finds nothing left to do. *)
Lemma normalize_string_twice_without_space (s : string) :
  str_contains space s = false ->
  normalize_string (normalize_string (PyStr s) chars_to_remove) chars_to_remove
  = normalize_string (PyStr s) chars_to_remove.
Proof.
  intros H. unfold normalize_string. rewrite H.
  rewrite !remove_chars_is_filter.
  rewrite str_contains_filter
    by (rewrite str_contains_space_upper; exact H).
  rewrite upper_filter_upper, str_filter_twice.
  f_equal. apply str_filter_ext. intros a. apply andb_diag.
Qed.
End Normalizer.



(** C8.  [normalize_string] is not idempotent: on ["- a"] the first pass
    strips nothing (the hyphen leads), then removes the hyphen and returns
    [" A"], a string with leading whitespace; the second pass strips it. *)
Theorem normalize_not_idempotent :
  normalize (PyStr "- a") = PyStr " A"
  /\ normalize (normalize (PyStr "- a")) = PyStr "A"
  /\ normalize (normalize (PyStr "- a")) <> normalize (PyStr "- a").
Proof. vm_compute. repeat split. discriminate. Qed.

(** ** dict and set *)

Lemma check_hashable_ok (k : pyval) :
  hashable k = true -> check_hashable k = Ok tt.
Proof.
  unfold hashable, check_hashable.
  destruct (unhashable_type k); [discriminate | reflexivity].
Qed.

Lemma check_hashable_cases (k : pyval) :
  (hashable k = true /\ check_hashable k = Ok tt)
  \/ (hashable k = false /\ exists msg, check_hashable k = Raise (TypeError msg)).
Proof.
  unfold hashable, check_hashable.
  destruct (unhashable_type k); [right | left]; split; eauto.
Qed.

Section DictFacts.
Context {V : Type}.
Implicit Types (d : dict V) (k : pyval) (v : V).

Lemma dict_get_set_same d k v : dict_get k (dict_set k v d) = Some v.
Proof.
  induction d as [|[k' v'] d IH]; simpl.
  - rewrite pyval_eqb_refl. reflexivity.
  - destruct (pyval_eqb k' k) eqn:E; simpl; rewrite E; auto.
Qed.

Lemma dict_get_set_other d k k' v :
  k <> k' -> dict_get k' (dict_set k v d) = dict_get k' d.
Proof.
  intros N. induction d as [|[k0 v0] d IH]; simpl.
  - apply pyval_eqb_neq in N. rewrite N. reflexivity.
  - destruct (pyval_eqb k0 k) eqn:E; simpl.
    + apply pyval_eqb_eq in E. subst k0.
      apply pyval_eqb_neq in N. rewrite N. reflexivity.
    + rewrite IH. reflexivity.
Qed.

Lemma dict_set_set d k v w : dict_set k v (dict_set k w d) = dict_set k v d.
Proof.
  induction d as [|[k0 v0] d IH]; simpl.
  - rewrite pyval_eqb_refl. reflexivity.
  - destruct (pyval_eqb k0 k) eqn:E; simpl; rewrite E; [reflexivity|].
    rewrite IH. reflexivity.
Qed.

Lemma dict_mem_set_same d k v : dict_mem k (dict_set k v d) = true.
Proof. unfold dict_mem. rewrite dict_get_set_same. reflexivity. Qed.

Lemma dict_mem_set_other d k k' v :
  k <> k' -> dict_mem k' (dict_set k v d) = dict_mem k' d.
Proof. intros N. unfold dict_mem. rewrite dict_get_set_other; auto. Qed.

Lemma dict_keys_set d k v x :
  In x (dict_keys (dict_set k v d)) -> x = k \/ In x (dict_keys d).
Proof.
  induction d as [|[k0 v0] d IH]; simpl.
  - intros [<-|[]]. auto.
  - destruct (pyval_eqb k0 k) eqn:E; simpl; intuition.
Qed.

Lemma dict_set_nonempty d k v : dict_set k v d <> [].
Proof.
  destruct d as [|[k0 v0] d]; simpl; [discriminate|].
  destruct (pyval_eqb k0 k); discriminate.
Qed.

Lemma unique_keys_set d k v :
  unique_keys d = true -> unique_keys (dict_set k v d) = true.
Proof.
  induction d as [|[k0 v0] d IH]; simpl; [reflexivity|].
  intros H. apply andb_true_iff in H as [H0 Hd].
  destruct (pyval_eqb k0 k) eqn:E; simpl.
  - rewrite H0, Hd. reflexivity.
  - rewrite IH by assumption. rewrite andb_true_r.
    apply pyval_eqb_neq in E.
    rewrite dict_mem_set_other by congruence. exact H0.
Qed.

Lemma dict_count_absent d k : dict_mem k d = false -> dict_count k d = 0%nat.
Proof.
  unfold dict_mem, dict_count.
  induction d as [|[k0 v0] d IH]; simpl; [reflexivity|].
  destruct (pyval_eqb k0 k); [discriminate | exact IH].
Qed.

(** A key that has been written holds exactly one slot. *)
Lemma dict_count_set d k v :
  unique_keys d = true -> dict_count k (dict_set k v d) = 1%nat.
Proof.
  induction d as [|[k0 v0] d IH]; simpl.
  - intros _. unfold dict_count. simpl. rewrite pyval_eqb_refl. reflexivity.
  - intros H. apply andb_true_iff in H as [H0 Hd].
    destruct (pyval_eqb k0 k) eqn:E.
    + apply pyval_eqb_eq in E. subst k0.
      unfold dict_count. simpl. rewrite pyval_eqb_refl. simpl.
      f_equal. apply dict_count_absent.
      destruct (dict_mem k d); [discriminate | reflexivity].
    + unfold dict_count in *. simpl. rewrite E. apply IH. exact Hd.
Qed.
End DictFacts.

Lemma set_add_In (k x : pyval) (s : pyset) :
  In x (set_add k s) <-> x = k \/ In x s.
Proof.
  unfold set_add, set_mem. destruct (existsb (pyval_eqb k) s) eqn:E.
  - split; [auto|]. intros [->|H]; [|exact H].
    apply existsb_exists in E as (y & Hy & Ey).
    apply pyval_eqb_eq in Ey. subst. exact Hy.
  - rewrite in_app_iff. simpl. intuition.
Qed.

Lemma set_add_NoDup (k : pyval) (s : pyset) : NoDup s -> NoDup (set_add k s).
Proof.
  intros H. unfold set_add, set_mem.
  destruct (existsb (pyval_eqb k) s) eqn:E; [exact H|].
  apply NoDup_app; [exact H | repeat constructor; simpl; tauto |].
  intros x Hx [Ek|[]]. subst x.
  assert (existsb (pyval_eqb k) s = true) as C; [|congruence].
  apply existsb_exists. exists k. split; [exact Hx | apply pyval_eqb_refl].
Qed.

Lemma set_add_nonempty (k : pyval) (s : pyset) : set_add k s <> [].
Proof.
  intros E. assert (H : In k (set_add k s)) by (apply set_add_In; auto).
  rewrite E in H. exact H.
Qed.

(** ** __setitem__ *)

Lemma setitem_returns (self : ND.t) (k v : pyval) :
  is_not_None k = true -> is_not_None v = true ->
  hashable k = true -> hashable (ND.normalize_fn self k) = true ->
  ND.__setitem__ k v self = (Ok tt, inserted self k v).
Proof.
  intros Hk Hv Hh Hn. run_method.
  rewrite Hk, Hv, (check_hashable_ok _ Hh), (check_hashable_ok _ Hn).
  unfold inserted, recorded.
  destruct (dict_get (ND.normalize_fn self k)
              (ND.normalized_to_original_keys_dict self)) eqn:E;
    cbn; rewrite ?dict_set_set; reflexivity.
Qed.

Lemma has_original_keys_after_add (n2o : dict pyset) (kn k x : pyval) (ks : pyset) :
  x = kn \/ has_original_keys n2o x = true ->
  has_original_keys (dict_set kn (set_add k ks) n2o) x = true.
Proof.
  unfold has_original_keys. intros H.
  destruct (pyval_eqb kn x) eqn:E.
  - apply pyval_eqb_eq in E. subst x. rewrite dict_get_set_same.
    pose proof (set_add_nonempty k ks). destruct (set_add k ks); congruence.
  - apply pyval_eqb_neq in E. rewrite dict_get_set_other by exact E.
    destruct H as [->|H]; [congruence | exact H].
Qed.

Lemma inserted_keeps_original_keys (self : ND.t) (k v : pyval) :
  store_keys_have_original_keys self = true ->
  store_keys_have_original_keys (inserted self k v) = true.
Proof.
  unfold store_keys_have_original_keys, inserted. cbn.
  intros H. rewrite forallb_forall in *. intros x Hx.
  apply has_original_keys_after_add.
  apply dict_keys_set in Hx as [->|Hx]; auto.
Qed.

(** Whatever an insertion does, return or raise, it leaves every stored
    normalized key with an original key. *)
Lemma setitem_keeps_original_keys (self : ND.t) (k v : pyval) :
  store_keys_have_original_keys self = true ->
  store_keys_have_original_keys (snd (ND.__setitem__ k v self)) = true.
Proof.
  intros H.
  destruct (is_not_None k) eqn:Hk;
    [|run_method; rewrite Hk; exact H].
  destruct (is_not_None v) eqn:Hv;
    [|run_method; rewrite Hk, Hv; exact H].
  destruct (check_hashable_cases k) as [[Hh Ek]|[Hh [m Ek]]];
    [|run_method; rewrite Hk, Hv, Ek; exact H].
  destruct (check_hashable_cases (ND.normalize_fn self k))
    as [[Hn En]|[Hn [m En]]].
  - rewrite setitem_returns by assumption.
    apply inserted_keeps_original_keys. exact H.
  - run_method. rewrite Hk, Hv, Ek, En. exact H.
Qed.

Lemma update_pairs_keeps_original_keys pairs (self : ND.t) :
  store_keys_have_original_keys self = true ->
  store_keys_have_original_keys (snd (ND.update_pairs pairs self)) = true.
Proof.
  revert self. induction pairs as [|[k v] pairs IH]; intros self H; [exact H|].
  simpl. unfold ND.bind.
  pose proof (setitem_keeps_original_keys self k v H) as H1.
  destruct (ND.__setitem__ k v self) as [[[]|e] self1]; simpl in *.
  - apply IH. exact H1.
  - exact H1.
Qed.

(** Construction from pairs yields an instance in which every stored
    normalized key has an original key. *)
Lemma init_has_original_keys pairs nf dvf (self : ND.t) :
  ND.__init__ pairs nf dvf = Ok self ->
  store_keys_have_original_keys self = true.
Proof.
  unfold ND.__init__. intros E.
  pose proof (update_pairs_keeps_original_keys pairs (ND.empty nf dvf) eq_refl)
    as H.
  destruct (ND.update_pairs pairs (ND.empty nf dvf)) as [[[]|e] s]; simpl in *;
    congruence.
Qed.

(** ** __getitem__ and __contains__ *)

Lemma getitem_present (self : ND.t) (k v : pyval) :
  hashable (ND.normalize_fn self k) = true ->
  dict_get (ND.normalize_fn self k) (ND.store self) = Some v ->
  ND.__getitem__ k self = (Ok v, self).
Proof.
  intros Hn Hv. run_method. rewrite (check_hashable_ok _ Hn).
  unfold dict_mem. rewrite Hv. cbn. rewrite Hv. reflexivity.
Qed.

Lemma getitem_unhashable (self : ND.t) (k : pyval) :
  hashable (ND.normalize_fn self k) = false ->
  exists msg, ND.__getitem__ k self = (Raise (TypeError msg), self).
Proof.
  intros Hn. run_method.
  destruct (check_hashable_cases (ND.normalize_fn self k))
    as [[Hh _]|[_ [m E]]]; [congruence|].
  exists m. rewrite E. reflexivity.
Qed.

Lemma getitem_absent_no_factory (self : ND.t) (k : pyval) :
  hashable (ND.normalize_fn self k) = true ->
  dict_mem (ND.normalize_fn self k) (ND.store self) = false ->
  ND.default_value_fn self = None ->
  ND.__getitem__ k self = (Raise (KeyError k), self).
Proof.
  intros Hn Habs Hd. run_method.
  rewrite (check_hashable_ok _ Hn), Habs. cbn. rewrite Hd. reflexivity.
Qed.

Lemma getitem_absent_factory (self : ND.t) (k : pyval) factory :
  hashable (ND.normalize_fn self k) = true ->
  dict_mem (ND.normalize_fn self k) (ND.store self) = false ->
  ND.default_value_fn self = Some factory ->
  ND.__getitem__ k self = (Ok (factory tt), defaulted self k (factory tt)).
Proof.
  intros Hn Habs Hd. run_method.
  rewrite (check_hashable_ok _ Hn), Habs. cbn. rewrite Hd. cbn.
  rewrite dict_get_set_same. reflexivity.
Qed.

Lemma contains_defaulted (self : ND.t) (k v : pyval) :
  hashable (ND.normalize_fn self k) = true ->
  ND.__contains__ k (defaulted self k v) = (Ok true, defaulted self k v).
Proof.
  intros Hn. run_method. unfold defaulted. cbn.
  rewrite (check_hashable_ok _ Hn), dict_mem_set_same. reflexivity.
Qed.

(** C7.  A key whose normalized form is absent from the store.  Without a
    default-value factory the lookup raises [KeyError] carrying the key as
    given, and writes nothing.  With a factory it stores the factory's
    value under the normalized key and returns it, after which the key is
    contained; with the factory [set] what is returned is the empty set. *)
Theorem getitem_absent (self : ND.t) (k : pyval) :
  hashable (ND.normalize_fn self k) = true ->
  dict_mem (ND.normalize_fn self k) (ND.store self) = false ->
  (ND.default_value_fn self = None ->
   ND.__getitem__ k self = (Raise (KeyError k), self))
  /\ (forall factory, ND.default_value_fn self = Some factory ->
      let self' := defaulted self k (factory tt) in
      ND.__getitem__ k self = (Ok (factory tt), self')
      /\ dict_get (ND.normalize_fn self k) (ND.store self') = Some (factory tt)
      /\ ND.__contains__ k self' = (Ok true, self'))
  /\ (ND.default_value_fn self = Some ND.py_set ->
      fst (ND.__getitem__ k self) = Ok (PySet [])).
Proof.
  intros Hn Habs. split; [|split].
  - apply getitem_absent_no_factory; assumption.
  - intros factory Hd. cbn zeta. split; [|split].
    + apply getitem_absent_factory; assumption.
    + unfold defaulted. cbn. apply dict_get_set_same.
    + apply contains_defaulted. exact Hn.
  - intros Hd. rewrite (getitem_absent_factory self k ND.py_set) by assumption.
    reflexivity.
Qed.

Lemma getitem_absent_witness :
  let self := ND.empty normalize (Some ND.py_set) in
  let k := PyStr "hla-a" in
  ND.__getitem__ k self = (Ok (PySet []), defaulted self k (PySet []))
  /\ ND.__contains__ k (defaulted self k (PySet [])) 
     = (Ok true, defaulted self k (PySet [])).
Proof.
  intros self k.
  destruct (getitem_absent self k eq_refl eq_refl) as (_ & H & _).
  destruct (H ND.py_set eq_refl) as (H1 & _ & H3).
  split; [exact H1 | exact H3].
Defined.

(** ** original_keys and original_key *)

Lemma original_keys_returns (self : ND.t) (k : pyval) :
  hashable (ND.normalize_fn self k) = true ->
  ND.original_keys k self = (Ok (recorded self (ND.normalize_fn self k)), self).
Proof.
  intros Hn. run_method. rewrite (check_hashable_ok _ Hn). unfold recorded.
  destruct (dict_get (ND.normalize_fn self k)
              (ND.normalized_to_original_keys_dict self)); reflexivity.
Qed.

Lemma original_key_not_found (self : ND.t) (k : pyval) :
  hashable (ND.normalize_fn self k) = true ->
  recorded self (ND.normalize_fn self k) = [] ->
  ND.original_key k self = (Raise (KeyError k), self).
Proof.
  intros Hn Hr. unfold ND.original_key, ND.bind.
  rewrite (original_keys_returns _ _ Hn), Hr. reflexivity.
Qed.

Lemma original_key_sole (self : ND.t) (k k0 : pyval) :
  hashable (ND.normalize_fn self k) = true ->
  recorded self (ND.normalize_fn self k) = [k0] ->
  ND.original_key k self = (Ok k0, self).
Proof.
  intros Hn Hr. unfold ND.original_key, ND.bind.
  rewrite (original_keys_returns _ _ Hn), Hr. reflexivity.
Qed.

(** With two or more original keys the message of the [ValueError] is
    never built: its format has two conversions and is given one value. *)
Lemma original_key_ambiguous (self : ND.t) (k : pyval) :
  hashable (ND.normalize_fn self k) = true ->
  (1 < List.length (recorded self (ND.normalize_fn self k)))%nat ->
  ND.original_key k self
  = (Raise (TypeError "not enough arguments for format string"), self).
Proof.
  intros Hn Hr. unfold ND.original_key, ND.bind.
  rewrite (original_keys_returns _ _ Hn).
  destruct (recorded self (ND.normalize_fn self k)) as [|k0 [|k1 ks]];
    simpl in Hr; try lia.
  reflexivity.
Qed.

(** C3.  Two original keys that share a normalized form: [original_key]
    raises, but a [TypeError] from the formatting of the message, not the
    [ValueError] that would name the candidates. *)
Theorem original_key_two_candidates :
  ND.__init__ [(PyStr "hla-a", PyInt 1); (PyStr "HLA_A", PyInt 2)]
    normalize None = Ok example_two_spellings
  /\ fst (ND.original_keys (PyStr "HLAA") example_two_spellings)
     = Ok [PyStr "hla-a"; PyStr "HLA_A"]
  /\ fst (ND.original_key (PyStr "HLAA") example_two_spellings)
     = Raise (TypeError "not enough arguments for format string").
Proof. repeat split. Qed.

(** ** Two insertions under one normalized key *)

Lemma recorded_inserted (self : ND.t) (k v : pyval) :
  recorded (inserted self k v) (ND.normalize_fn self k)
  = set_add k (recorded self (ND.normalize_fn self k)).
Proof. unfold recorded at 1, inserted. cbn. rewrite dict_get_set_same. reflexivity. Qed.

(** C6.  Keys [k1] and [k2] with one normalized form, under which the
    container has no original key yet: after inserting [(k1, v1)] and then
    [(k2, v2)] that normalized form holds exactly one slot of the store,
    its value is [v2], and the original keys of [k1] are the set of [k1]
    and [k2]. *)
Theorem insert_twice_same_normalized_key
    (self : ND.t) (k1 k2 v1 v2 : pyval) :
  unique_keys (ND.store self) = true ->
  ND.original_keys k1 self = (Ok [], self) ->
  ND.normalize_fn self k1 = ND.normalize_fn self k2 ->
  is_not_None k1 = true -> is_not_None k2 = true ->
  is_not_None v1 = true -> is_not_None v2 = true ->
  hashable k1 = true -> hashable k2 = true ->
  hashable (ND.normalize_fn self k1) = true ->
  exists self',
    ND.bind (ND.__setitem__ k1 v1) (fun _ => ND.__setitem__ k2 v2) self
    = (Ok tt, self')
    /\ ND.__getitem__ k1 self' = (Ok v2, self')
    /\ dict_count (ND.normalize_fn self k1) (ND.store self') = 1%nat
    /\ exists ks,
         ND.original_keys k1 self' = (Ok ks, self')
         /\ NoDup ks
         /\ forall x, In x ks <-> x = k1 \/ x = k2.
Proof.
  intros Hu Hnone Hnf Hk1 Hk2 Hv1 Hv2 Hh1 Hh2 Hn.
  rewrite (original_keys_returns _ _ Hn) in Hnone.
  assert (Hrec : recorded self (ND.normalize_fn self k1) = []) by congruence.
  clear Hnone.
  set (self1 := inserted self k1 v1).
  set (self2 := inserted self1 k2 v2).
  assert (Hnf1 : ND.normalize_fn self1 = ND.normalize_fn self) by reflexivity.
  assert (Hnf2 : ND.normalize_fn self2 = ND.normalize_fn self) by reflexivity.
  assert (Hr2 : recorded self2 (ND.normalize_fn self k1) = set_add k2 [k1]).
  { unfold self2. rewrite Hnf, <- Hnf1, recorded_inserted, Hnf1, <- Hnf.
    unfold self1. rewrite recorded_inserted, Hrec. reflexivity. }
  exists self2. split; [|split; [|split]].
  - unfold ND.bind. rewrite setitem_returns by assumption. fold self1.
    apply setitem_returns; try assumption.
    rewrite Hnf1, <- Hnf. exact Hn.
  - apply getitem_present; rewrite Hnf2; [exact Hn|].
    unfold self2, inserted. cbn. rewrite <- Hnf. apply dict_get_set_same.
  - unfold self2, inserted. cbn. rewrite <- Hnf.
    apply dict_count_set, unique_keys_set, Hu.
  - exists (set_add k2 [k1]). split; [|split].
    + rewrite original_keys_returns by (rewrite Hnf2; exact Hn).
      rewrite Hnf2, Hr2. reflexivity.
    + apply set_add_NoDup. repeat constructor. simpl. tauto.
    + intros x. rewrite set_add_In. simpl. intuition.
Qed.

Lemma insert_twice_same_normalized_key_witness :
  exists self',
    ND.bind (ND.__setitem__ (PyStr "hla-a") (PyInt 1))
      (fun _ => ND.__setitem__ (PyStr "HLA_A") (PyInt 2))
      (ND.empty normalize None)
    = (Ok tt, self')
    /\ ND.__getitem__ (PyStr "hla-a") self' = (Ok (PyInt 2), self')
    /\ dict_count (PyStr "HLAA") (ND.store self') = 1%nat
    /\ exists ks,
         ND.original_keys (PyStr "hla-a") self' = (Ok ks, self')
         /\ NoDup ks
         /\ forall x, In x ks <-> x = PyStr "hla-a" \/ x = PyStr "HLA_A".
Proof.
  exact (insert_twice_same_normalized_key (ND.empty normalize None)
           (PyStr "hla-a") (PyStr "HLA_A") (PyInt 1) (PyInt 2)
           eq_refl eq_refl eq_refl eq_refl eq_refl eq_refl eq_refl
           eq_refl eq_refl eq_refl).
Defined.

(** On a container that already has original keys under the normalized
    form, the two insertions add to them. *)
Lemma insert_twice_adds_original_keys (self : ND.t) (k1 k2 v1 v2 : pyval) :
  ND.normalize_fn self k1 = ND.normalize_fn self k2 ->
  recorded (inserted (inserted self k1 v1) k2 v2) (ND.normalize_fn self k1)
  = set_add k2 (set_add k1 (recorded self (ND.normalize_fn self k1))).
Proof.
  intros Hnf.
  pose proof (recorded_inserted (inserted self k1 v1) k2 v2) as H.
  cbn [ND.normalize_fn inserted] in H. rewrite <- Hnf in H.
  rewrite recorded_inserted in H. exact H.
Qed.

(** ** invert *)

Lemma getitem_cases (self : ND.t) (k : pyval) :
  (exists msg, ND.__getitem__ k self = (Raise (TypeError msg), self))
  \/ ND.__getitem__ k self = (Raise (KeyError k), self)
  \/ (hashable (ND.normalize_fn self k) = true
      /\ exists v, ND.__getitem__ k self = (Ok v, self))
  \/ (hashable (ND.normalize_fn self k) = true
      /\ exists v, ND.__getitem__ k self = (Ok v, defaulted self k v)).
Proof.
  destruct (hashable (ND.normalize_fn self k)) eqn:Hn.
  - destruct (dict_get (ND.normalize_fn self k) (ND.store self)) as [v|] eqn:E.
    + right; right; left. split; [reflexivity|]. exists v.
      apply getitem_present; assumption.
    + assert (Habs : dict_mem (ND.normalize_fn self k) (ND.store self) = false)
        by (unfold dict_mem; rewrite E; reflexivity).
      destruct (ND.default_value_fn self) as [f|] eqn:Hd.
      * right; right; right. split; [reflexivity|]. exists (f tt).
        apply getitem_absent_factory; assumption.
      * right; left. apply getitem_absent_no_factory; assumption.
  - left. apply getitem_unhashable. exact Hn.
Qed.

Lemma built_by_lookups_only_set (self : ND.t) (kn v : pyval) :
  built_by_lookups_only self -> hashable kn = true ->
  built_by_lookups_only
    (ND.mk (dict_set kn v (ND.store self))
       (ND.original_to_normalized_key_dict self)
       (ND.normalized_to_original_keys_dict self)
       (ND.normalize_fn self) (ND.default_value_fn self)).
Proof.
  intros (Ho & Hn & Hk) Hh. repeat split; cbn; try assumption.
  rewrite forallb_forall in *. intros x Hx.
  apply dict_keys_set in Hx as [->|Hx]; auto.
Qed.

Lemma getitem_add_keeps_lookups_only (self : ND.t) (vi k : pyval) :
  built_by_lookups_only self ->
  built_by_lookups_only (snd (ND.getitem_add vi k self)).
Proof.
  intros B. unfold ND.getitem_add, ND.bind.
  assert (Bd : forall v, hashable (ND.normalize_fn self vi) = true ->
                 built_by_lookups_only (defaulted self vi v)).
  { intros v Hh. apply built_by_lookups_only_set; assumption. }
  destruct (getitem_cases self vi)
    as [[m E]|[E|[[Hh [v E]]|[Hh [v E]]]]]; rewrite E; cbn; try exact B.
  - destruct v; cbn; try exact B.
    unfold ND.lift, py_set_add, rbind.
    destruct (check_hashable k); cbn; [|exact B].
    apply built_by_lookups_only_set; assumption.
  - destruct v; cbn; try (apply Bd; exact Hh).
    unfold ND.lift, py_set_add, rbind.
    destruct (check_hashable k); cbn; [|apply Bd; exact Hh].
    apply (built_by_lookups_only_set (defaulted self vi (PySet xs))); auto.
Qed.

Lemma add_all_keeps_lookups_only values (self : ND.t) (k : pyval) :
  built_by_lookups_only self ->
  built_by_lookups_only (snd (ND.add_all values k self)).
Proof.
  revert self. induction values as [|vi values IH]; intros self B; [exact B|].
  simpl. unfold ND.bind.
  pose proof (getitem_add_keeps_lookups_only self vi k B) as B1.
  destruct (ND.getitem_add vi k self) as [[[]|e] self1]; simpl in *; auto.
Qed.

Lemma invert_loop_keeps_lookups_only its (self : ND.t) :
  built_by_lookups_only self ->
  built_by_lookups_only (snd (ND.invert_loop its self)).
Proof.
  revert self. induction its as [|[[k v]|e] its IH]; intros self B;
    try exact B.
  simpl. unfold ND.bind.
  pose proof (add_all_keeps_lookups_only (ND.values_of v) self k B) as B1.
  destruct (ND.add_all (ND.values_of v) k self) as [[[]|e] self1];
    simpl in *; auto.
Qed.

(** What [invert] returns was filled by lookups alone. *)
Lemma invert_built_by_lookups_only (self r : ND.t) :
  fst (ND.invert self) = Ok r -> built_by_lookups_only r.
Proof.
  unfold ND.invert, ND.bind, ND.read, ND.lift, ND.__init__. simpl.
  destruct (ND.items self) as [[its|e] self1]; [|discriminate].
  pose proof (invert_loop_keeps_lookups_only its
                (ND.empty (ND.normalize_fn self) (Some ND.py_set))) as B.
  destruct (ND.invert_loop its _) as [[[]|e] r']; simpl; [|discriminate].
  intros E. injection E as <-. apply B. repeat split.
Qed.

(** C10.  In a container returned by [invert], the original keys of every
    key are the empty set: both original-key indexes of the container are
    empty, because its entries were made by the default-value path of the
    lookup, which writes the store only. *)
Theorem inverted_has_no_original_keys (self r : ND.t) (k : pyval) :
  fst (ND.invert self) = Ok r ->
  hashable (ND.normalize_fn r k) = true ->
  ND.original_keys k r = (Ok [], r)
  /\ ND.original_to_normalized_key_dict r = []
  /\ ND.normalized_to_original_keys_dict r = [].
Proof.
  intros E Hh. destruct (invert_built_by_lookups_only self r E) as (Ho & Hn & _).
  repeat split; try assumption.
  rewrite (original_keys_returns _ _ Hh). unfold recorded. rewrite Hn.
  reflexivity.
Qed.

Lemma inverted_has_no_original_keys_witness :
  ND.__init__ [(PyStr "hla-a", PyInt 1)] normalize None = Ok example_table
  /\ fst (ND.invert example_table) = Ok example_inverted
  /\ ND.original_keys (PyInt 1) example_inverted = (Ok [], example_inverted)
  /\ ND.original_to_normalized_key_dict example_inverted = []
  /\ ND.normalized_to_original_keys_dict example_inverted = [].
Proof.
  split; [reflexivity|]. split; [reflexivity|].
  apply (inverted_has_no_original_keys example_table example_inverted (PyInt 1));
    reflexivity.
Defined.

(** ** Iterating a container that was filled by lookups *)

Lemma all_empty_get (n2o : dict pyset) (k : pyval) (ks : pyset) :
  all_empty n2o -> dict_get k n2o = Some ks -> ks = [].
Proof.
  induction 1 as [|[k0 ks0] n2o H0 _ IH]; simpl; [discriminate|].
  destruct (pyval_eqb k0 k); [|exact IH].
  simpl in H0. congruence.
Qed.

Lemma all_empty_set (n2o : dict pyset) (k : pyval) :
  all_empty n2o -> all_empty (dict_set k [] n2o).
Proof.
  induction 1 as [|[k0 ks0] n2o H0 H IH]; simpl.
  - repeat constructor.
  - destruct (pyval_eqb k0 k); constructor; auto.
Qed.

(** With no original key recorded anywhere, the [defaultdict] hands out an
    empty set for each normalized key, and keeps it. *)
Lemma defaultdict_getitem_without_original_keys (k : pyval) (self : ND.t) :
  all_empty (ND.normalized_to_original_keys_dict self) ->
  hashable k = true ->
  exists self',
    ND.defaultdict_getitem k self = (Ok [], self')
    /\ ND.store self' = ND.store self
    /\ all_empty (ND.normalized_to_original_keys_dict self').
Proof.
  intros Ha Hk. run_method. rewrite (check_hashable_ok _ Hk).
  destruct (dict_get k (ND.normalized_to_original_keys_dict self))
    as [ks|] eqn:E.
  - assert (ks = []) by (eapply all_empty_get; eauto). subst ks.
    exists self. repeat split. exact Ha.
  - eexists. split; [reflexivity|]. split; [reflexivity|].
    cbn. apply all_empty_set. exact Ha.
Qed.

Lemma key_sets_without_original_keys (keys : list pyval) (self : ND.t) :
  all_empty (ND.normalized_to_original_keys_dict self) ->
  forallb hashable keys = true ->
  exists self',
    ND.mapM ND.defaultdict_getitem keys self
    = (Ok (map (fun _ => []) keys), self')
    /\ ND.store self' = ND.store self
    /\ all_empty (ND.normalized_to_original_keys_dict self').
Proof.
  revert self. induction keys as [|k keys IH]; intros self Ha Hk.
  - exists self. repeat split. exact Ha.
  - simpl in Hk. apply andb_true_iff in Hk as [Hk Hks].
    destruct (defaultdict_getitem_without_original_keys k self Ha Hk)
      as (self1 & E1 & Hs1 & Ha1).
    destruct (IH self1 Ha1 Hks) as (self' & E' & Hs & Ha').
    exists self'. simpl. unfold ND.bind. rewrite E1, E'.
    repeat split; [congruence | assumption].
Qed.

(** A non-empty container that was filled by lookups alone cannot be
    inverted: the first key set that [keys_aligned_with_values] looks at
    is empty, and its assertion fails. *)
Lemma invert_without_original_keys (self : ND.t) :
  built_by_lookups_only self -> ND.store self <> [] ->
  fst (ND.invert self) = Raise AssertionError.
Proof.
  intros (_ & Hn & Hk) Hne.
  assert (Ha : all_empty (ND.normalized_to_original_keys_dict self))
    by (rewrite Hn; constructor).
  destruct (key_sets_without_original_keys _ self Ha Hk)
    as (self' & E & Hs & _).
  unfold ND.invert, ND.items, ND.keys_aligned_with_values,
    ND.key_sets_aligned_with_values, ND.normalized_keys, ND.values,
    ND.bind, ND.read, ND.lift, ND.ret, ND.__init__.
  cbn. rewrite E. cbn. rewrite Hs.
  destruct (ND.store self) as [|[k0 v0] st]; [congruence|].
  reflexivity.
Qed.

Lemma invert_twice_raises (self r : ND.t) :
  fst (ND.invert self) = Ok r -> ND.store r <> [] ->
  fst (ND.invert r) = Raise AssertionError.
Proof.
  intros E Hne. apply invert_without_original_keys; [|exact Hne].
  exact (invert_built_by_lookups_only self r E).
Qed.

(** C5.  A container with the single scalar value [1] under ["hla-a"]:
    [invert] returns, and inverting what it returned raises
    [AssertionError]. *)
Theorem invert_twice_fails :
  ND.__init__ [(PyStr "hla-a", PyInt 1)] normalize None = Ok example_table
  /\ fst (ND.invert example_table) = Ok example_inverted
  /\ fst (ND.invert example_inverted) = Raise AssertionError.
Proof. repeat split. Qed.

(** C4.  The invariant, every stored normalized key has an original key,
    holds of an empty container and fails after one lookup that stores a
    default value, after which iterating the items fails the assertion of
    [keys_aligned_with_values]; it fails as well of the container that
    [invert] returns for a container in which it holds. *)
Theorem lookup_default_breaks_original_keys :
  let self := ND.empty normalize (Some ND.py_set) in
  let self' := snd (ND.__getitem__ (PyStr "hla-a") self) in
  store_keys_have_original_keys self = true
  /\ fst (ND.__getitem__ (PyStr "hla-a") self) = Ok (PySet [])
  /\ store_keys_have_original_keys self' = false
  /\ fst (ND.items self') = Ok [Raise AssertionError]
  /\ store_keys_have_original_keys example_table = true
  /\ fst (ND.invert example_table) = Ok example_inverted
  /\ store_keys_have_original_keys example_inverted = false.
Proof. repeat split. Qed.

(** ** map_values and map_keys *)

Lemma map_values_has_original_keys (fn : pyval -> pyval) (self r : ND.t) :
  fst (ND.map_values fn self) = Ok r ->
  store_keys_have_original_keys r = true.
Proof.
  unfold ND.map_values, ND.bind, ND.read, ND.lift.
  destruct (ND.items self) as [[its|e] self1]; [|discriminate].
  destruct (ND.comprehension _ its) as [pairs|e]; [|discriminate].
  cbn. apply init_has_original_keys.
Qed.

Lemma map_keys_has_original_keys (fn : pyval -> pyval) (self r : ND.t) :
  fst (ND.map_keys fn self) = Ok r ->
  store_keys_have_original_keys r = true.
Proof.
  unfold ND.map_keys, ND.bind, ND.read, ND.lift.
  destruct (ND.items self) as [[its|e] self1]; [|discriminate].
  destruct (ND.comprehension _ its) as [pairs|e]; [|discriminate].
  cbn. apply init_has_original_keys.
Qed.

(** ** Three spellings *)

(** C2, as worded, fails: the container built from the three pairs does
    not have size 1 with the value 3 under ["HLAA"]. *)
Lemma three_spellings_not_one_entry :
  ~ (exists self,
       ND.__init__ three_spellings normalize None = Ok self
       /\ fst (ND.__len__ self) = Ok 1%nat
       /\ fst (ND.__getitem__ (PyStr "HLAA") self) = Ok (PyInt 3)).
Proof.
  intros (self & E & Hlen & _).
  change (Ok example_three_spellings = Ok self) in E.
  injection E as <-.
  change (Ok 2%nat = Ok 1%nat) in Hlen.
  discriminate Hlen.
Qed.

(** C2.  The container built with the default normalizer from the pairs
    [("hla-a", 1)], [("HLA_A", 2)], [("hla a", 3)] has size 2: the first
    two keys normalize to ["HLAA"], under which the value is 2, and the
    third, whose inner space is kept, to ["HLA A"], under which the value
    is 3. *)
Theorem three_spellings_two_entries :
  ND.__init__ three_spellings normalize None = Ok example_three_spellings
  /\ fst (ND.__len__ example_three_spellings) = Ok 2%nat
  /\ fst (ND.__getitem__ (PyStr "HLAA") example_three_spellings)
     = Ok (PyInt 2)
  /\ normalize (PyStr "hla a") = PyStr "HLA A"
  /\ fst (ND.__getitem__ (PyStr "hla a") example_three_spellings)
     = Ok (PyInt 3).
Proof. repeat split. Qed.

(** ** Allele groups *)

(** Whatever the allele group, [compact_string] raises: it reaches
    [Locus.compact_string] through the class and passes no instance. *)
Lemma compact_string_raises (self : AlleleGroup.t) (include_species : bool) :
  AlleleGroup.compact_string self include_species
  = Raise (TypeError
             "compact_string() missing 1 required positional argument: 'self'").
Proof. reflexivity. Qed.

Lemma normalized_string_with_species (self : AlleleGroup.t) :
  AlleleGroup.normalized_string self true
  = rbind (py_format "%s-%s" [PyStr (AlleleGroup.species_prefix self);
                              PyStr (AlleleGroup.gene_name self)])
      (fun locus => py_format "%s*%s" [PyStr locus;
                                       PyStr (AlleleGroup.group_id self)]).
Proof. reflexivity. Qed.

(** C1.  For the allele group of species ["HLA"], gene ["A"] and group
    ["02"], [normalized_string()] returns ["HLA-A*02"], and
    [compact_string()] returns nothing: it raises [TypeError], where the
    compact rendering of the locus followed by the group would have been
    ["HLAA02"]. *)
Theorem allele_group_HLA_A_02 :
  let g := AlleleGroup.mk "HLA" "A" "02" in
  AlleleGroup.normalized_string g true = Ok "HLA-A*02"
  /\ AlleleGroup.normalized_string g false = Ok "A*02"
  /\ AlleleGroup.compact_string g true
     = Raise (TypeError
                "compact_string() missing 1 required positional argument: 'self'")
  /\ rbind (Locus.compact_string (AlleleGroup.as_locus g) true)
       (fun locus => Ok (locus ++ AlleleGroup.group_id g)) = Ok "HLAA02".
Proof. repeat split. Qed.

(* ================================================================== *)
(** * Further properties of the normalizer *)

Lemma is_space_upper_char (a : ascii) : is_space (upper_char a) = is_space a.
Proof. destruct a as [[] [] [] [] [] [] [] []]; reflexivity. Qed.

Lemma upper_upper (s : string) : upper (upper s) = upper s.
Proof.
  induction s as [|a s IH]; simpl; [reflexivity|].
  rewrite upper_char_fixed, IH. reflexivity.
Qed.

Lemma lstrip_upper (s : string) : lstrip (upper s) = upper (lstrip s).
Proof.
  induction s as [|a s IH]; simpl; [reflexivity|].
  rewrite is_space_upper_char. destruct (is_space a); [exact IH | reflexivity].
Qed.

Lemma rstrip_upper (s : string) : rstrip (upper s) = upper (rstrip s).
Proof.
  induction s as [|a s IH]; simpl; [reflexivity|].
  rewrite IH, is_space_upper_char.
  destruct (rstrip s); simpl; [destruct (is_space a)|]; reflexivity.
Qed.

Lemma strip_upper (s : string) : strip (upper s) = upper (strip s).
Proof. unfold strip. rewrite lstrip_upper, rstrip_upper. reflexivity. Qed.

Lemma str_contains_upper_absent (c : ascii) (s : string) :
  str_contains c (upper s) = true -> upper_char c = c.
Proof.
  induction s as [|a s IH]; simpl; [discriminate|].
  intros H. apply orb_true_iff in H as [H|H]; [|exact (IH H)].
  apply Ascii.eqb_eq in H. subst c. apply upper_char_fixed.
Qed.

Lemma default_chars_cases (c : ascii) :
  str_contains c default_chars_to_remove = true ->
  c = "-"%char \/ c = "_"%char \/ c = "'"%char.
Proof.
  unfold default_chars_to_remove. cbn [str_contains].
  rewrite !orb_true_iff, !Ascii.eqb_eq.
  intros [H|[H|[H|H]]]; try discriminate; subst c; auto.
Qed.

Lemma upper_char_is_default_char (a c : ascii) :
  str_contains c default_chars_to_remove = true ->
  Ascii.eqb (upper_char a) c = Ascii.eqb a c.
Proof.
  intros H. destruct (default_chars_cases c H) as [->|[->| ->]];
    destruct a as [[] [] [] [] [] [] [] []]; reflexivity.
Qed.

Lemma upper_str_remove (c : ascii) (s : string) :
  str_contains c default_chars_to_remove = true ->
  upper (str_remove c s) = str_remove c (upper s).
Proof.
  intros H. induction s as [|a s IH]; simpl; [reflexivity|].
  rewrite (upper_char_is_default_char a c H).
  destruct (Ascii.eqb a c); simpl; rewrite IH; reflexivity.
Qed.

(** X1.  What [normalize_string] returns for a string is a string that
    holds no character of the removal set and that upper-casing leaves as
    it is. *)
Theorem normalize_string_result_shape (s chars_to_remove : string) :
  exists r,
    normalize_string (PyStr s) chars_to_remove = PyStr r
    /\ str_forallb (fun c => negb (str_contains c chars_to_remove)) r = true
    /\ upper r = r.
Proof.
  unfold normalize_string. rewrite remove_chars_is_filter.
  eexists. split; [reflexivity|]. split.
  - apply str_filter_removes.
  - apply upper_filter_upper.
Qed.

Lemma normalize_string_of_upper (s chars_to_remove : string) :
  normalize_string (PyStr (upper s)) chars_to_remove
  = normalize_string (PyStr s) chars_to_remove.
Proof.
  unfold normalize_string. rewrite str_contains_space_upper.
  destruct (str_contains space s); rewrite ?strip_upper, upper_upper;
    reflexivity.
Qed.

(** X2.  Two strings that differ only in the case of their letters have
    the same normalized form, whatever the removal set. *)
Theorem normalize_string_ignores_case (s1 s2 chars_to_remove : string) :
  upper s1 = upper s2 ->
  normalize_string (PyStr s1) chars_to_remove
  = normalize_string (PyStr s2) chars_to_remove.
Proof.
  intros E.
  rewrite <- (normalize_string_of_upper s1), <- (normalize_string_of_upper s2).
  rewrite E. reflexivity.
Qed.

Lemma normalize_string_ignores_case_witness :
  normalize_string (PyStr "Hla-a") default_chars_to_remove
  = normalize_string (PyStr "hLA-A") default_chars_to_remove.
Proof.
  apply (normalize_string_ignores_case "Hla-a" "hLA-A"). reflexivity.
Defined.

(** X3.  On a string without a space character the normalizer is
    idempotent, whatever the removal set: a second pass returns what the
    first returned. *)
Theorem normalize_string_idempotent_without_space (s chars_to_remove : string) :
  str_contains space s = false ->
  normalize_string (normalize_string (PyStr s) chars_to_remove) chars_to_remove
  = normalize_string (PyStr s) chars_to_remove.
Proof. apply normalize_string_twice_without_space. Qed.

Lemma normalize_string_idempotent_without_space_witness :
  normalize_string (normalize_string (PyStr "hla-a_01") default_chars_to_remove)
    default_chars_to_remove
  = normalize_string (PyStr "hla-a_01") default_chars_to_remove.
Proof.
  apply (normalize_string_idempotent_without_space "hla-a_01"). reflexivity.
Defined.

(** X4.  With the default removal set, deleting the hyphens, the
    underscores or the apostrophes of a string that has no space character
    does not change its normalized form. *)
Theorem normalize_ignores_removed_char (c : ascii) (s : string) :
  str_contains c default_chars_to_remove = true ->
  str_contains space s = false ->
  normalize (PyStr (str_remove c s)) = normalize (PyStr s).
Proof.
  intros Hc Hs. unfold normalize, normalize_string.
  assert (Hs' : str_contains space (str_remove c s) = false).
  { rewrite str_remove_is_filter. apply str_contains_filter. exact Hs. }
  rewrite Hs, Hs', !remove_chars_is_filter, (upper_str_remove c s Hc).
  rewrite str_remove_is_filter, str_filter_twice.
  f_equal. apply str_filter_ext. intros a.
  destruct (Ascii.eqb a c) eqn:E; [|reflexivity].
  apply Ascii.eqb_eq in E. subst a. cbn [negb andb]. rewrite Hc. reflexivity.
Qed.

Lemma normalize_ignores_removed_char_witness :
  normalize (PyStr (str_remove "-"%char "hla-a-01")) = normalize (PyStr "hla-a-01").
Proof.
  apply (normalize_ignores_removed_char "-"%char "hla-a-01"); reflexivity.
Defined.

(* ================================================================== *)
(** * Further properties of the dictionary *)

(** ** More on dict *)

Section MoreDictFacts.
Context {V : Type}.
Implicit Types (d : dict V) (k : pyval) (v : V).

Lemma dict_get_In d k : dict_mem k d = true <-> In k (dict_keys d).
Proof.
  unfold dict_mem. induction d as [|[k0 v0] d IH]; simpl.
  - split; [discriminate | tauto].
  - destruct (pyval_eqb k0 k) eqn:E.
    + apply pyval_eqb_eq in E. split; auto.
    + apply pyval_eqb_neq in E. rewrite IH. split; [auto|].
      intros [H|H]; [contradiction | exact H].
Qed.

Lemma dict_get_None_notin d k : dict_get k d = None <-> ~ In k (dict_keys d).
Proof.
  rewrite <- dict_get_In. unfold dict_mem.
  destruct (dict_get k d); split; congruence.
Qed.

Lemma dict_keys_set_iff d k v x :
  In x (dict_keys (dict_set k v d)) <-> x = k \/ In x (dict_keys d).
Proof.
  split; [apply dict_keys_set|].
  induction d as [|[k0 v0] d IH]; simpl.
  - intros [->|[]]. auto.
  - destruct (pyval_eqb k0 k) eqn:E; simpl.
    + apply pyval_eqb_eq in E. subst k0. intros [->|[H|H]]; auto.
    + intros [->|[H|H]]; auto.
Qed.

Lemma dict_set_length d k v :
  List.length (dict_set k v d)
  = if dict_mem k d then List.length d else S (List.length d).
Proof.
  unfold dict_mem. induction d as [|[k0 v0] d IH]; simpl; [reflexivity|].
  destruct (pyval_eqb k0 k); simpl; [reflexivity|].
  rewrite IH. destruct (dict_get k d); reflexivity.
Qed.

Lemma unique_keys_NoDup d : unique_keys d = true <-> NoDup (dict_keys d).
Proof.
  induction d as [|[k0 v0] d IH]; simpl.
  - split; [constructor | reflexivity].
  - rewrite andb_true_iff, negb_true_iff, IH. split.
    + intros [H1 H2]. constructor; [|exact H2].
      rewrite <- dict_get_In. congruence.
    + intros H. inversion H as [|? ? H1 H2]; subst. split; [|exact H2].
      rewrite <- dict_get_In in H1. destruct (dict_mem k0 d); congruence.
Qed.

Lemma dict_get_Some_In d k v : dict_get k d = Some v -> In (k, v) d.
Proof.
  induction d as [|[k0 v0] d IH]; simpl; [discriminate|].
  destruct (pyval_eqb k0 k) eqn:E.
  - apply pyval_eqb_eq in E. subst k0. intros [= ->]. auto.
  - auto.
Qed.

Lemma dict_In_get d k v :
  unique_keys d = true -> In (k, v) d -> dict_get k d = Some v.
Proof.
  induction d as [|[k0 v0] d IH]; simpl; [tauto|].
  intros U [E|H].
  - injection E as -> ->. rewrite pyval_eqb_refl. reflexivity.
  - apply andb_true_iff in U as [U0 U].
    destruct (pyval_eqb k0 k) eqn:E.
    + apply pyval_eqb_eq in E. subst k0.
      assert (dict_mem k d = true) as C; [|rewrite C in U0; discriminate].
      apply dict_get_In. apply (in_map fst) in H. exact H.
    + auto.
Qed.
End MoreDictFacts.

(** ** The outcomes of an insertion *)

Lemma setitem_cases (self : ND.t) (k v : pyval) :
  (insertable (ND.normalize_fn self) (k, v) = true
   /\ ND.__setitem__ k v self = (Ok tt, inserted self k v))
  \/ (insertable (ND.normalize_fn self) (k, v) = false
      /\ exists e self',
           ND.__setitem__ k v self = (Raise e, self')
           /\ ND.store self' = ND.store self
           /\ ND.normalized_to_original_keys_dict self'
              = ND.normalized_to_original_keys_dict self).
Proof.
  unfold insertable. cbn [fst snd].
  destruct (is_not_None k) eqn:Hk;
    [|right; split; [reflexivity|]; run_method; rewrite Hk; eauto].
  destruct (is_not_None v) eqn:Hv;
    [|right; split; [reflexivity|]; run_method; rewrite Hk, Hv; eauto].
  destruct (check_hashable_cases k) as [[Hh Ek]|[Hh [m Ek]]]; rewrite Hh;
    [|right; split; [reflexivity|]; run_method; rewrite Hk, Hv, Ek; eauto].
  destruct (check_hashable_cases (ND.normalize_fn self k))
    as [[Hn En]|[Hn [m En]]]; rewrite Hn.
  - left. split; [reflexivity|]. apply setitem_returns; assumption.
  - right. split; [reflexivity|]. run_method. rewrite Hk, Hv, Ek, En.
    do 2 eexists. split; [reflexivity|]. split; reflexivity.
Qed.

Lemma setitem_ok_inv (self self' : ND.t) (k v : pyval) :
  ND.__setitem__ k v self = (Ok tt, self') ->
  insertable (ND.normalize_fn self) (k, v) = true /\ self' = inserted self k v.
Proof.
  intros E. destruct (setitem_cases self k v)
    as [[Hi E']|[_ (e & s & E' & _)]]; rewrite E' in E.
  - split; [exact Hi | congruence].
  - discriminate.
Qed.

Lemma insertable_parts nf k v :
  insertable nf (k, v) = true ->
  is_not_None k = true /\ is_not_None v = true
  /\ hashable k = true /\ hashable (nf k) = true.
Proof.
  unfold insertable. cbn [fst snd]. rewrite !andb_true_iff. tauto.
Qed.

(** X5.  An insertion returns exactly when neither the key nor the value
    is [None], the key is hashable and its normalized form is hashable.  A
    [None] key or value raises [AssertionError] and a key that is not
    hashable raises [TypeError], and in both cases the container is left
    as it was; whenever the insertion raises, the store is untouched. *)
Theorem setitem_returns_iff (self : ND.t) (k v : pyval) :
  (fst (ND.__setitem__ k v self) = Ok tt
   <-> insertable (ND.normalize_fn self) (k, v) = true)
  /\ (is_not_None k && is_not_None v = false ->
      ND.__setitem__ k v self = (Raise AssertionError, self))
  /\ (is_not_None k && is_not_None v = true -> hashable k = false ->
      exists msg, ND.__setitem__ k v self = (Raise (TypeError msg), self))
  /\ (fst (ND.__setitem__ k v self) <> Ok tt ->
      ND.store (snd (ND.__setitem__ k v self)) = ND.store self).
Proof.
  split; [|split; [|split]].
  - destruct (setitem_cases self k v) as [[Hi E]|[Hi (e & s & E & _)]];
      rewrite E, Hi; cbn; split; congruence.
  - intros H. run_method. apply andb_false_iff in H as [H|H].
    + rewrite H. reflexivity.
    + destruct (is_not_None k); rewrite ?H; reflexivity.
  - intros H Hh. apply andb_true_iff in H as [Hk Hv]. run_method.
    rewrite Hk, Hv.
    destruct (check_hashable_cases k) as [[C _]|[_ [m E]]]; [congruence|].
    rewrite E. eauto.
  - destruct (setitem_cases self k v) as [[Hi E]|[Hi (e & s & E & Hs & _)]];
      rewrite E; cbn; [congruence | auto].
Qed.

Lemma setitem_returns_iff_witness :
  ND.__setitem__ PyNone (PyInt 1) example_table
  = (Raise AssertionError, example_table)
  /\ (exists msg,
        ND.__setitem__ (PyList [PyStr "hla-a"]) (PyInt 1) example_table
        = (Raise (TypeError msg), example_table)).
Proof.
  split.
  - apply (setitem_returns_iff example_table PyNone (PyInt 1)). reflexivity.
  - apply (setitem_returns_iff example_table (PyList [PyStr "hla-a"]) (PyInt 1));
      reflexivity.
Defined.

(** ** Insertion, then lookup *)

Lemma get_returns (self : ND.t) (k : pyval) (fallback : option pyval) :
  ND.get k fallback self
  = (rbind (check_hashable (ND.normalize_fn self k)) (fun _ =>
       Ok (match dict_get (ND.normalize_fn self k) (ND.store self) with
           | Some x => Some x
           | None => fallback
           end)), self).
Proof.
  unfold ND.get, ND.bind, ND.read, ND.lift, ND.ret, py_dict_get, rbind.
  destruct (check_hashable (ND.normalize_fn self k)); [|reflexivity].
  destruct (dict_get (ND.normalize_fn self k) (ND.store self)); reflexivity.
Qed.

Lemma contains_returns (self : ND.t) (k : pyval) :
  ND.__contains__ k self
  = (rbind (check_hashable (ND.normalize_fn self k)) (fun _ =>
       Ok (dict_mem (ND.normalize_fn self k) (ND.store self))), self).
Proof. reflexivity. Qed.

(** X6.  After [self[k] = v] has returned, every key with the normalized
    form of [k] is contained and looks up to [v] without changing the
    container, and [get] answers for every key of another normalized form
    what it answered before. *)
Theorem lookup_after_insert (self self' : ND.t) (k v : pyval) :
  ND.__setitem__ k v self = (Ok tt, self') ->
  (forall k', ND.normalize_fn self k' = ND.normalize_fn self k ->
     ND.__getitem__ k' self' = (Ok v, self')
     /\ ND.__contains__ k' self' = (Ok true, self'))
  /\ (forall k' fallback, ND.normalize_fn self k' <> ND.normalize_fn self k ->
        fst (ND.get k' fallback self') = fst (ND.get k' fallback self)).
Proof.
  intros E. apply setitem_ok_inv in E as [Hi ->].
  apply insertable_parts in Hi as (_ & _ & _ & Hn).
  split.
  - intros k' Hk'. split.
    + apply getitem_present; cbn [inserted ND.normalize_fn ND.store];
        rewrite Hk'; [exact Hn | apply dict_get_set_same].
    + run_method. unfold inserted. cbn. rewrite Hk'.
      rewrite (check_hashable_ok _ Hn), dict_mem_set_same. reflexivity.
  - intros k' fallback Hk'. rewrite !get_returns.
    cbn [inserted ND.normalize_fn ND.store fst].
    rewrite dict_get_set_other by congruence. reflexivity.
Qed.

Lemma lookup_after_insert_witness :
  ND.__getitem__ (PyStr "HLA_A") (inserted example_table (PyStr "HLA-A") (PyInt 7))
  = (Ok (PyInt 7), inserted example_table (PyStr "HLA-A") (PyInt 7)).
Proof.
  destruct (lookup_after_insert example_table
              (inserted example_table (PyStr "HLA-A") (PyInt 7))
              (PyStr "HLA-A") (PyInt 7) eq_refl) as [H _].
  exact (proj1 (H (PyStr "HLA_A") eq_refl)).
Defined.

(** X7.  An insertion that returns makes the size one larger when the key
    was not contained, and leaves the size as it was when it was. *)
Theorem size_after_insert (self self' : ND.t) (k v : pyval) (n : nat) (b : bool) :
  ND.__setitem__ k v self = (Ok tt, self') ->
  fst (ND.__len__ self) = Ok n ->
  fst (ND.__contains__ k self) = Ok b ->
  fst (ND.__len__ self') = Ok (if b then n else S n).
Proof.
  intros E Hn Hb. apply setitem_ok_inv in E as [Hi ->].
  apply insertable_parts in Hi as (_ & _ & _ & Hh).
  revert Hn Hb. run_method. unfold ND.__len__, ND.bind, ND.read, ND.ret.
  cbn. rewrite (check_hashable_ok _ Hh). cbn.
  intros [= <-] [= <-]. rewrite dict_set_length. reflexivity.
Qed.

Lemma size_after_insert_witness :
  fst (ND.__len__ (inserted example_table (PyStr "hla-b") (PyInt 2))) = Ok 2%nat
  /\ fst (ND.__len__ (inserted example_table (PyStr "HLA_A") (PyInt 2))) = Ok 1%nat.
Proof.
  split.
  - apply (size_after_insert example_table _ (PyStr "hla-b") (PyInt 2) 1 false);
      reflexivity.
  - apply (size_after_insert example_table _ (PyStr "HLA_A") (PyInt 2) 1 true);
      reflexivity.
Defined.

(** X8.  [get] never changes the container, whatever the key and whether
    or not a default-value factory is set.  For a contained key it returns
    the value that a lookup returns; for a key that is not contained it
    returns the fallback. *)
Theorem get_agrees_with_lookup (self : ND.t) (k : pyval) (fallback : option pyval) :
  snd (ND.get k fallback self) = self
  /\ (fst (ND.__contains__ k self) = Ok true ->
      exists v, fst (ND.get k fallback self) = Ok (Some v)
                /\ ND.__getitem__ k self = (Ok v, self))
  /\ (fst (ND.__contains__ k self) = Ok false ->
      fst (ND.get k fallback self) = Ok fallback).
Proof.
  rewrite get_returns, contains_returns. cbn [fst snd]. split; [reflexivity|].
  unfold dict_mem.
  destruct (check_hashable_cases (ND.normalize_fn self k))
    as [[Hh E]|[Hh [m E]]]; rewrite E; cbn [rbind]; [|split; discriminate].
  destruct (dict_get (ND.normalize_fn self k) (ND.store self)) as [v|] eqn:G.
  - split; [|discriminate]. intros _. exists v. split; [reflexivity|].
    apply getitem_present; assumption.
  - split; [discriminate | reflexivity].
Qed.

Lemma get_agrees_with_lookup_witness :
  (exists v, fst (ND.get (PyStr "HLA_A") None example_table) = Ok (Some v)
             /\ ND.__getitem__ (PyStr "HLA_A") example_table
                = (Ok v, example_table))
  /\ fst (ND.get (PyStr "HLA_B") (Some (PyInt 0)) example_table)
     = Ok (Some (PyInt 0)).
Proof.
  split.
  - apply (get_agrees_with_lookup example_table (PyStr "HLA_A") None).
    reflexivity.
  - apply (get_agrees_with_lookup example_table (PyStr "HLA_B") (Some (PyInt 0))).
    reflexivity.
Defined.

(** ** Containers built by the constructor *)

Lemma inserted_all_snoc pairs (self : ND.t) (k v : pyval) :
  inserted_all (pairs ++ [(k, v)]) self = inserted (inserted_all pairs self) k v.
Proof. unfold inserted_all. rewrite fold_left_app. reflexivity. Qed.

Lemma inserted_all_normalize_fn pairs (self : ND.t) :
  ND.normalize_fn (inserted_all pairs self) = ND.normalize_fn self.
Proof.
  revert self. induction pairs as [|[k v] pairs IH]; intros self; [reflexivity|].
  simpl. rewrite IH. reflexivity.
Qed.

Lemma update_pairs_cases pairs (self : ND.t) :
  (forallb (insertable (ND.normalize_fn self)) pairs = true
   /\ ND.update_pairs pairs self = (Ok tt, inserted_all pairs self))
  \/ (forallb (insertable (ND.normalize_fn self)) pairs = false
      /\ exists e self', ND.update_pairs pairs self = (Raise e, self')).
Proof.
  revert self. induction pairs as [|[k v] pairs IH]; intros self.
  - left. split; reflexivity.
  - cbn [forallb ND.update_pairs]. unfold ND.bind.
    destruct (setitem_cases self k v) as [[Hi E]|[Hi (e & s & E & _)]];
      rewrite E, Hi.
    + destruct (IH (inserted self k v)) as [[Hf E']|[Hf (e & s & E')]];
        cbn [inserted ND.normalize_fn] in Hf; rewrite Hf, E'.
      * left. split; reflexivity.
      * right. split; [reflexivity | eauto].
    + right. split; [reflexivity | eauto].
Qed.

Lemma init_ok_inv pairs nf dvf (self : ND.t) :
  ND.__init__ pairs nf dvf = Ok self ->
  forallb (insertable nf) pairs = true
  /\ self = inserted_all pairs (ND.empty nf dvf).
Proof.
  unfold ND.__init__. intros E.
  destruct (update_pairs_cases pairs (ND.empty nf dvf))
    as [[Hf E']|[_ (e & s & E')]]; rewrite E' in E.
  - split; [exact Hf | congruence].
  - discriminate.
Qed.

Lemma init_returns pairs nf dvf :
  forallb (insertable nf) pairs = true ->
  ND.__init__ pairs nf dvf = Ok (inserted_all pairs (ND.empty nf dvf)).
Proof.
  unfold ND.__init__. intros Hf.
  destruct (update_pairs_cases pairs (ND.empty nf dvf))
    as [[_ E']|[Hf' _]]; [rewrite E'; reflexivity|].
  cbn in Hf'. congruence.
Qed.

Lemma given_snoc pairs (k v x : pyval) :
  given (pairs ++ [(k, v)]) x <-> given pairs x \/ x = k.
Proof.
  unfold given. rewrite map_app, in_app_iff. simpl. intuition.
Qed.

Lemma last_value_snoc nf kn pairs (k v : pyval) :
  last_value nf kn (pairs ++ [(k, v)])
  = if pyval_eqb (nf k) kn then Some v else last_value nf kn pairs.
Proof. unfold last_value. rewrite fold_left_app. reflexivity. Qed.

Lemma recorded_inserted_cases (self : ND.t) (k v kn : pyval) :
  recorded (inserted self k v) kn
  = if pyval_eqb (ND.normalize_fn self k) kn
    then set_add k (recorded self kn)
    else recorded self kn.
Proof.
  destruct (pyval_eqb (ND.normalize_fn self k) kn) eqn:E.
  - apply pyval_eqb_eq in E. subst kn. apply recorded_inserted.
  - apply pyval_eqb_neq in E. unfold recorded, inserted. cbn.
    rewrite dict_get_set_other by exact E. reflexivity.
Qed.

Section Built.
Variable nf : pyval -> pyval.
Variable dvf : option (unit -> pyval).

Local Abbreviation built := (built nf dvf).

Lemma built_snoc pairs (k v : pyval) :
  built (pairs ++ [(k, v)]) = inserted (built pairs) k v.
Proof. apply inserted_all_snoc. Qed.

Lemma built_normalize_fn pairs : ND.normalize_fn (built pairs) = nf.
Proof. unfold built. rewrite inserted_all_normalize_fn. reflexivity. Qed.

Lemma built_store_unique pairs : unique_keys (ND.store (built pairs)) = true.
Proof.
  induction pairs as [|[k v] pairs IH] using rev_ind; [reflexivity|].
  rewrite built_snoc. cbn. apply unique_keys_set. exact IH.
Qed.

Lemma built_store_keys pairs (x : pyval) :
  In x (dict_keys (ND.store (built pairs)))
  <-> exists k, given pairs k /\ nf k = x.
Proof.
  induction pairs as [|[k v] pairs IH] using rev_ind.
  - simpl. split; [tauto|]. intros (k & [] & _).
  - rewrite built_snoc. cbn [inserted ND.store].
    rewrite dict_keys_set_iff, IH, built_normalize_fn. split.
    + intros [->|(k0 & Hg & E)].
      * exists k. split; [apply given_snoc; auto | reflexivity].
      * exists k0. split; [apply given_snoc; auto | exact E].
    + intros (k0 & Hg & E). apply given_snoc in Hg as [Hg| ->]; eauto.
Qed.

Lemma built_store_get pairs (kn : pyval) :
  dict_get kn (ND.store (built pairs)) = last_value nf kn pairs.
Proof.
  induction pairs as [|[k v] pairs IH] using rev_ind; [reflexivity|].
  rewrite built_snoc, last_value_snoc. cbn [inserted ND.store].
  rewrite built_normalize_fn.
  destruct (pyval_eqb (nf k) kn) eqn:E.
  - apply pyval_eqb_eq in E. subst kn. apply dict_get_set_same.
  - apply pyval_eqb_neq in E. rewrite dict_get_set_other by exact E. exact IH.
Qed.

Lemma built_keys_unique pairs :
  unique_keys (ND.original_to_normalized_key_dict (built pairs)) = true.
Proof.
  induction pairs as [|[k v] pairs IH] using rev_ind; [reflexivity|].
  rewrite built_snoc. cbn. apply unique_keys_set. exact IH.
Qed.

Lemma built_keys pairs (k : pyval) :
  In k (dict_keys (ND.original_to_normalized_key_dict (built pairs)))
  <-> given pairs k.
Proof.
  induction pairs as [|[k0 v0] pairs IH] using rev_ind.
  - simpl. tauto.
  - rewrite built_snoc. cbn [inserted ND.original_to_normalized_key_dict].
    rewrite dict_keys_set_iff, IH, given_snoc. tauto.
Qed.

Lemma built_recorded pairs (kn k : pyval) :
  In k (recorded (built pairs) kn) <-> given pairs k /\ nf k = kn.
Proof.
  induction pairs as [|[k0 v0] pairs IH] using rev_ind.
  - simpl. split; [tauto|]. intros [[] _].
  - rewrite built_snoc, recorded_inserted_cases, built_normalize_fn, given_snoc.
    destruct (pyval_eqb (nf k0) kn) eqn:E.
    + apply pyval_eqb_eq in E. rewrite set_add_In, IH. split.
      * intros [->|[H1 H2]]; auto.
      * intros [[H1| ->] H2]; auto.
    + apply pyval_eqb_neq in E. rewrite IH. split.
      * intros [H1 H2]; auto.
      * intros [[H1| ->] H2]; [auto | contradiction].
Qed.

Lemma built_recorded_NoDup pairs (kn : pyval) : NoDup (recorded (built pairs) kn).
Proof.
  induction pairs as [|[k0 v0] pairs IH] using rev_ind; [constructor|].
  rewrite built_snoc, recorded_inserted_cases.
  destruct (pyval_eqb _ kn); [apply set_add_NoDup|]; exact IH.
Qed.
End Built.

Lemma init_built pairs nf dvf (self : ND.t) :
  ND.__init__ pairs nf dvf = Ok self ->
  self = built nf dvf pairs
  /\ ND.normalize_fn self = nf
  /\ forallb (insertable nf) pairs = true.
Proof.
  intros E. apply init_ok_inv in E as [Hf ->].
  split; [reflexivity|]. split; [apply built_normalize_fn | exact Hf].
Qed.

Lemma NoDup_singleton (A : Type) (l : list A) (a : A) :
  NoDup l -> (forall x, In x l <-> x = a) -> l = [a].
Proof.
  intros Hn H. destruct l as [|x l].
  - exfalso. apply (proj2 (H a) eq_refl).
  - assert (x = a) by (apply H; left; reflexivity). subst x.
    destruct l as [|y l]; [reflexivity|].
    assert (y = a) by (apply H; right; left; reflexivity). subst y.
    inversion Hn as [|? ? Hna _]; subst. exfalso. apply Hna. left. reflexivity.
Qed.

(** X9.  In a container returned by the constructor the normalized keys
    are, without repetition, the normalized forms of the keys it was given,
    so that its size is the number of distinct normalized forms among
    them. *)
Theorem constructed_normalized_keys pairs nf dvf (self : ND.t) :
  ND.__init__ pairs nf dvf = Ok self ->
  exists nks,
    ND.normalized_keys self = (Ok nks, self)
    /\ NoDup nks
    /\ (forall x, In x nks <-> exists k, given pairs k /\ nf k = x)
    /\ ND.__len__ self = (Ok (List.length nks), self).
Proof.
  intros E. apply init_built in E as (-> & _ & _).
  exists (dict_keys (ND.store (built nf dvf pairs))).
  split; [reflexivity|]. split; [|split].
  - apply unique_keys_NoDup, built_store_unique.
  - apply built_store_keys.
  - unfold ND.__len__, ND.bind, ND.read, ND.ret, dict_keys.
    rewrite length_map. reflexivity.
Qed.

Lemma constructed_normalized_keys_witness :
  exists nks,
    ND.normalized_keys example_three_spellings
    = (Ok nks, example_three_spellings)
    /\ NoDup nks
    /\ (forall x, In x nks
                  <-> exists k, given three_spellings k /\ normalize k = x)
    /\ ND.__len__ example_three_spellings
       = (Ok (List.length nks), example_three_spellings).
Proof.
  exact (constructed_normalized_keys three_spellings normalize None
           example_three_spellings eq_refl).
Defined.

(** X10.  In a container returned by the constructor, [get] returns for a
    key the value of the last given pair whose key has the same
    normalized form, and the fallback when there is no such pair. *)
Theorem constructed_last_write_wins pairs nf dvf (self : ND.t) (k : pyval)
    (fallback : option pyval) :
  ND.__init__ pairs nf dvf = Ok self ->
  hashable (nf k) = true ->
  ND.get k fallback self
  = (Ok (match last_value nf (nf k) pairs with
         | Some v => Some v
         | None => fallback
         end), self).
Proof.
  intros E Hh. apply init_built in E as (-> & Hnf & _).
  rewrite get_returns, Hnf, (check_hashable_ok _ Hh), built_store_get.
  reflexivity.
Qed.

Lemma constructed_last_write_wins_witness :
  ND.get (PyStr "h-l-a-a") None example_three_spellings
  = (Ok (Some (PyInt 2)), example_three_spellings).
Proof.
  exact (constructed_last_write_wins three_spellings normalize None
           example_three_spellings (PyStr "h-l-a-a") None eq_refl eq_refl).
Defined.

(** X11.  In a container returned by the constructor, [keys()] are the
    given keys, each once, and the original keys of a key are, each once,
    the given keys that have its normalized form. *)
Theorem constructed_original_keys pairs nf dvf (self : ND.t) :
  ND.__init__ pairs nf dvf = Ok self ->
  (exists ks,
     ND.keys self = (Ok ks, self)
     /\ NoDup ks /\ forall k, In k ks <-> given pairs k)
  /\ (forall k, hashable (nf k) = true ->
      exists oks,
        ND.original_keys k self = (Ok oks, self)
        /\ NoDup oks
        /\ forall k0, In k0 oks <-> given pairs k0 /\ nf k0 = nf k).
Proof.
  intros E. apply init_built in E as (-> & Hnf & _). split.
  - eexists. split; [reflexivity|]. split.
    + apply unique_keys_NoDup, built_keys_unique.
    + apply built_keys.
  - intros k Hh. eexists. split; [|split].
    + apply original_keys_returns. rewrite Hnf. exact Hh.
    + apply built_recorded_NoDup.
    + intros k0. rewrite Hnf. apply built_recorded.
Qed.

Lemma constructed_original_keys_witness :
  exists oks,
    ND.original_keys (PyStr "HLAA") example_three_spellings
    = (Ok oks, example_three_spellings)
    /\ NoDup oks
    /\ forall k0, In k0 oks
                  <-> given three_spellings k0
                      /\ normalize k0 = normalize (PyStr "HLAA").
Proof.
  exact (proj2 (constructed_original_keys three_spellings normalize None
                  example_three_spellings eq_refl)
           (PyStr "HLAA") eq_refl).
Defined.

(** X12.  In a container returned by the constructor there are at least
    as many original keys as stored values. *)
Theorem constructed_keys_outnumber_values pairs nf dvf (self : ND.t) :
  ND.__init__ pairs nf dvf = Ok self ->
  exists ks vs,
    ND.keys self = (Ok ks, self)
    /\ ND.values self = (Ok vs, self)
    /\ (List.length vs <= List.length ks)%nat.
Proof.
  intros E. apply init_built in E as (-> & Hnf & _).
  do 2 eexists. split; [reflexivity|]. split; [reflexivity|].
  unfold dict_values. rewrite length_map.
  rewrite <- (length_map fst (ND.store _)).
  rewrite <- (length_map nf (dict_keys (ND.original_to_normalized_key_dict _))).
  apply NoDup_incl_length.
  - apply unique_keys_NoDup, built_store_unique.
  - intros x Hx. apply built_store_keys in Hx as (k & Hg & <-).
    apply in_map, built_keys. exact Hg.
Qed.

Lemma constructed_keys_outnumber_values_witness :
  exists ks vs,
    ND.keys example_three_spellings = (Ok ks, example_three_spellings)
    /\ ND.values example_three_spellings = (Ok vs, example_three_spellings)
    /\ (List.length vs <= List.length ks)%nat.
Proof.
  exact (constructed_keys_outnumber_values three_spellings normalize None
           example_three_spellings eq_refl).
Defined.

(** X13.  In a container returned by the constructor, when [k0] is the
    only given key with its normalized form, [original_key] returns [k0]
    for every key of that normalized form. *)
Theorem constructed_original_key pairs nf dvf (self : ND.t) (k0 k : pyval) :
  ND.__init__ pairs nf dvf = Ok self ->
  given pairs k0 ->
  (forall k1, given pairs k1 -> nf k1 = nf k0 -> k1 = k0) ->
  nf k = nf k0 ->
  ND.original_key k self = (Ok k0, self).
Proof.
  intros E Hg Hsole Hk. apply init_built in E as (-> & Hnf & Hf).
  assert (Hh : hashable (nf k0) = true).
  { unfold given in Hg. apply in_map_iff in Hg as ([k' v] & <- & Hin).
    rewrite forallb_forall in Hf.
    apply (insertable_parts nf k' v (Hf _ Hin)). }
  apply original_key_sole; rewrite Hnf, Hk; [exact Hh|].
  apply NoDup_singleton; [apply built_recorded_NoDup|].
  intros x. rewrite built_recorded. split.
  - intros [H1 H2]. auto.
  - intros ->. auto.
Qed.

Lemma constructed_original_key_witness :
  ND.original_key (PyStr "HLA A") example_three_spellings
  = (Ok (PyStr "hla a"), example_three_spellings).
Proof.
  apply (constructed_original_key three_spellings normalize None
           example_three_spellings (PyStr "hla a") (PyStr "HLA A") eq_refl).
  - unfold given. simpl. auto.
  - intros k1 Hg. unfold given in Hg. simpl in Hg.
    destruct Hg as [<-|[<-|[<-|[]]]]; intros E;
      [discriminate E | discriminate E | reflexivity].
  - reflexivity.
Defined.

(** ** Iterating the items *)

Lemma defaultdict_getitem_present (self : ND.t) (kn : pyval) :
  hashable kn = true ->
  has_original_keys (ND.normalized_to_original_keys_dict self) kn = true ->
  ND.defaultdict_getitem kn self = (Ok (recorded self kn), self).
Proof.
  intros Hh Ho. run_method. rewrite (check_hashable_ok _ Hh).
  unfold has_original_keys in Ho. unfold recorded.
  destruct (dict_get kn (ND.normalized_to_original_keys_dict self));
    [reflexivity | discriminate].
Qed.

Lemma key_sets_present (keys : list pyval) (self : ND.t) :
  forallb hashable keys = true ->
  forallb (has_original_keys (ND.normalized_to_original_keys_dict self)) keys
  = true ->
  ND.mapM ND.defaultdict_getitem keys self = (Ok (map (recorded self) keys), self).
Proof.
  induction keys as [|kn keys IH]; [reflexivity|].
  cbn [forallb]. rewrite !andb_true_iff. intros [Hh Hhs] [Ho Hos].
  cbn [ND.mapM map]. unfold ND.bind.
  rewrite (defaultdict_getitem_present self kn Hh Ho), (IH Hhs Hos).
  reflexivity.
Qed.

Lemma zip_representatives (self : ND.t) (st : dict pyval) :
  forallb (has_original_keys (ND.normalized_to_original_keys_dict self))
    (dict_keys st) = true ->
  exists its,
    map (fun kv => rbind (fst kv) (fun k => Ok (k, snd kv)))
      (combine (map ND.first_key (map (recorded self) (dict_keys st)))
         (dict_values st))
    = map Ok its
    /\ Forall2 (item_of self) st its.
Proof.
  induction st as [|[kn v] st IH]; cbn [dict_keys dict_values map forallb].
  - intros _. exists []. split; [reflexivity | constructor].
  - rewrite andb_true_iff. intros [Ho Hos].
    destruct (IH Hos) as (its & E & F).
    unfold has_original_keys in Ho. unfold recorded at 1.
    cbn [fst snd] in *.
    destruct (dict_get kn (ND.normalized_to_original_keys_dict self))
      as [[|k ks]|] eqn:G; try discriminate.
    exists ((k, v) :: its). split.
    + cbn. unfold dict_keys, dict_values in E. rewrite E. reflexivity.
    + constructor; [|exact F]. split; [reflexivity|].
      cbn. unfold recorded. rewrite G. left. reflexivity.
Qed.

Lemma items_returns (self : ND.t) :
  forallb hashable (dict_keys (ND.store self)) = true ->
  store_keys_have_original_keys self = true ->
  exists its,
    ND.items self = (Ok (map Ok its), self)
    /\ Forall2 (item_of self) (ND.store self) its.
Proof.
  intros Hh Ho. unfold store_keys_have_original_keys in Ho.
  destruct (zip_representatives self (ND.store self) Ho) as (its & E & F).
  exists its. split; [|exact F].
  unfold ND.items, ND.keys_aligned_with_values,
    ND.key_sets_aligned_with_values, ND.normalized_keys, ND.values,
    ND.bind, ND.read, ND.ret.
  rewrite (key_sets_present _ self Hh Ho), E. reflexivity.
Qed.

Lemma item_of_values (self : ND.t) (st its : list (pyval * pyval)) :
  Forall2 (item_of self) st its -> map snd its = dict_values st.
Proof.
  unfold dict_values. induction 1 as [|e i st its Hi _ IH]; [reflexivity|].
  destruct Hi as [Hv _]. cbn [map]. rewrite Hv, IH. reflexivity.
Qed.

(** X14.  When every stored normalized key is hashable and has a
    non-empty set of original keys, iterating [items()] raises nothing and
    leaves the container as it was; it yields one pair for each entry of
    the store, in the order of the store, made of the entry's value and of
    a member of the entry's key set. *)
Theorem items_of_consistent (self : ND.t) :
  forallb hashable (dict_keys (ND.store self)) = true ->
  store_keys_have_original_keys self = true ->
  exists its,
    ND.items self = (Ok (map Ok its), self)
    /\ Forall2 (item_of self) (ND.store self) its
    /\ map snd its = dict_values (ND.store self)
    /\ ND.__len__ self = (Ok (List.length its), self).
Proof.
  intros Hh Ho. destruct (items_returns self Hh Ho) as (its & E & F).
  exists its. split; [exact E|]. split; [exact F|]. split.
  - apply (item_of_values self). exact F.
  - unfold ND.__len__, ND.bind, ND.read, ND.ret.
    rewrite (Forall2_length F). reflexivity.
Qed.

Lemma items_of_consistent_witness :
  exists its,
    ND.items example_three_spellings = (Ok (map Ok its), example_three_spellings)
    /\ Forall2 (item_of example_three_spellings)
         (ND.store example_three_spellings) its
    /\ map snd its = dict_values (ND.store example_three_spellings)
    /\ ND.__len__ example_three_spellings
       = (Ok (List.length its), example_three_spellings).
Proof.
  exact (items_of_consistent example_three_spellings eq_refl eq_refl).
Defined.

Lemma Forall2_In_right (A B : Type) (R : A -> B -> Prop) l l' (y : B) :
  Forall2 R l l' -> In y l' -> exists x, In x l /\ R x y.
Proof.
  induction 1 as [|a b l l' Hab _ IH]; simpl; [tauto|].
  intros [<-|Hy].
  - exists a. auto.
  - destruct (IH Hy) as (x & Hx & Hr). exists x. auto.
Qed.

Lemma given_insertable nf pairs (k : pyval) :
  forallb (insertable nf) pairs = true -> given pairs k ->
  is_not_None k = true /\ hashable k = true /\ hashable (nf k) = true.
Proof.
  intros Hf Hg. unfold given in Hg.
  apply in_map_iff in Hg as ([k' v] & <- & Hin).
  rewrite forallb_forall in Hf.
  destruct (insertable_parts nf k' v (Hf _ Hin)) as (H1 & _ & H2 & H3). auto.
Qed.

Lemma built_store_hashable nf dvf pairs :
  forallb (insertable nf) pairs = true ->
  forallb hashable (dict_keys (ND.store (built nf dvf pairs))) = true.
Proof.
  intros Hf. apply forallb_forall. intros x Hx.
  apply built_store_keys in Hx as (k & Hg & <-).
  apply (given_insertable nf pairs k Hf Hg).
Qed.

Lemma constructed_items_return pairs nf dvf (self : ND.t) :
  ND.__init__ pairs nf dvf = Ok self ->
  exists its,
    ND.items self = (Ok (map Ok its), self)
    /\ Forall2 (item_of self) (ND.store self) its.
Proof.
  intros E. pose proof (init_has_original_keys _ _ _ _ E) as Ho.
  apply init_built in E as (-> & _ & Hf).
  apply items_returns; [apply built_store_hashable; exact Hf | exact Ho].
Qed.

(** X15.  Iterating the items of a container returned by the constructor
    raises nothing, leaves the container as it was and yields as many
    pairs as the size; the key of each pair is one of the given keys, and
    looking it up returns the value of the pair. *)
Theorem constructed_items pairs nf dvf (self : ND.t) :
  ND.__init__ pairs nf dvf = Ok self ->
  exists its,
    ND.items self = (Ok (map Ok its), self)
    /\ ND.__len__ self = (Ok (List.length its), self)
    /\ forall k v, In (k, v) its ->
         given pairs k /\ ND.__getitem__ k self = (Ok v, self).
Proof.
  intros E. destruct (constructed_items_return _ _ _ _ E) as (its & Ei & F).
  apply init_built in E as (-> & Hnf & Hf).
  exists its. split; [exact Ei|]. split.
  - unfold ND.__len__, ND.bind, ND.read, ND.ret.
    rewrite (Forall2_length F). reflexivity.
  - intros k v Hin.
    destruct (Forall2_In_right _ _ _ _ _ _ F Hin) as ([kn v'] & Hs & Hv & Hr).
    cbn [fst snd] in Hv, Hr. subst v'.
    apply built_recorded in Hr as [Hg Hk]. split; [exact Hg|].
    apply getitem_present; rewrite Hnf, Hk.
    + rewrite <- Hk. apply (given_insertable nf pairs k Hf Hg).
    + apply dict_In_get; [apply built_store_unique | exact Hs].
Qed.

Lemma constructed_items_witness :
  exists its,
    ND.items example_three_spellings = (Ok (map Ok its), example_three_spellings)
    /\ ND.__len__ example_three_spellings
       = (Ok (List.length its), example_three_spellings)
    /\ forall k v, In (k, v) its ->
         given three_spellings k
         /\ ND.__getitem__ k example_three_spellings
            = (Ok v, example_three_spellings).
Proof.
  exact (constructed_items three_spellings normalize None
           example_three_spellings eq_refl).
Defined.

(** ** map_values *)

Lemma dict_set_absent (V : Type) (d : dict V) (k : pyval) (v : V) :
  ~ In k (dict_keys d) -> dict_set k v d = (d ++ [(k, v)])%list.
Proof.
  induction d as [|[k0 v0] d IH]; simpl; [reflexivity|].
  intros H. destruct (pyval_eqb k0 k) eqn:E.
  - apply pyval_eqb_eq in E. tauto.
  - rewrite IH by tauto. reflexivity.
Qed.

Lemma built_store_distinct nf dvf pairs :
  NoDup (map (fun kv => nf (fst kv)) pairs) ->
  ND.store (built nf dvf pairs) = map (fun kv => (nf (fst kv), snd kv)) pairs.
Proof.
  induction pairs as [|[k v] pairs IH] using rev_ind; [reflexivity|].
  rewrite map_app. cbn [map fst snd]. intros H.
  apply NoDup_remove in H as [H1 H2]. rewrite app_nil_r in H1, H2.
  rewrite built_snoc. cbn [inserted ND.store].
  rewrite built_normalize_fn, IH by exact H1.
  rewrite dict_set_absent, map_app; [reflexivity|].
  unfold dict_keys. rewrite map_map. exact H2.
Qed.

Lemma built_keys_distinct nf dvf pairs :
  NoDup (map fst pairs) ->
  dict_keys (ND.original_to_normalized_key_dict (built nf dvf pairs))
  = map fst pairs.
Proof.
  induction pairs as [|[k v] pairs IH] using rev_ind; [reflexivity|].
  rewrite map_app. cbn [map fst]. intros H.
  apply NoDup_remove in H as [H1 H2]. rewrite app_nil_r in H1, H2.
  rewrite built_snoc. cbn [inserted ND.original_to_normalized_key_dict].
  rewrite dict_set_absent by (rewrite IH; assumption).
  unfold dict_keys in *. rewrite map_app, IH by exact H1. reflexivity.
Qed.

Lemma comprehension_returns (A B : Type) (f : A -> B) (xs : list A) :
  ND.comprehension f (map Ok xs) = Ok (map f xs).
Proof.
  induction xs as [|x xs IH]; [reflexivity|].
  cbn [map ND.comprehension]. rewrite IH. reflexivity.
Qed.

Lemma NoDup_map_inv_fst (f : pyval -> pyval) (l : list pyval) :
  NoDup (map f l) -> NoDup l.
Proof.
  induction l as [|x l IH]; simpl; [constructor|].
  intros H. inversion H as [|? ? H1 H2]; subst.
  constructor; [|auto]. intros C. apply H1. apply in_map. exact C.
Qed.

(** X16.  On a container returned by the constructor, [map_values(fn)]
    with an [fn] that returns [None] for no stored value returns a
    container with the same normalized keys, in the same order, each with
    [fn] of its value; the receiver is left as it was.  The original keys
    of the new container are one per stored value: the keys that
    [items()] yields. *)
Theorem constructed_map_values pairs nf dvf (self : ND.t)
    (fn : pyval -> pyval) :
  ND.__init__ pairs nf dvf = Ok self ->
  (forall v, In v (dict_values (ND.store self)) -> is_not_None (fn v) = true) ->
  exists r its,
    ND.map_values fn self = (Ok r, self)
    /\ ND.store r = map (fun kv => (fst kv, fn (snd kv))) (ND.store self)
    /\ ND.items self = (Ok (map Ok its), self)
    /\ ND.keys r = (Ok (map fst its), r).
Proof.
  intros E Hfn. destruct (constructed_items_return _ _ _ _ E) as (its & Ei & F).
  pose proof (item_of_values _ _ _ F) as Hvals.
  apply init_built in E as (-> & Hnf & Hf).
  set (self := built nf dvf pairs) in *.
  set (pairs' := map (fun kv => (fst kv, fn (snd kv))) its).
  assert (Hkeys : map (fun kv => nf (fst kv)) its = dict_keys (ND.store self)).
  { clear Ei Hvals Hfn. unfold dict_keys.
    induction F as [|[kn v] [k v'] st its' [_ Hr] _ IH]; [reflexivity|].
    cbn [map fst snd] in *. apply built_recorded in Hr as [_ ->].
    rewrite IH. reflexivity. }
  assert (Hnd : NoDup (map (fun kv => nf (fst kv)) pairs')).
  { unfold pairs'. rewrite map_map. cbn [fst]. rewrite Hkeys.
    apply unique_keys_NoDup, built_store_unique. }
  assert (Hins : forallb (insertable nf) pairs' = true).
  { apply forallb_forall. intros [k w] Hin. unfold pairs' in Hin.
    apply in_map_iff in Hin as ([k0 v] & [= <- <-] & Hin).
    assert (Hv : In v (dict_values (ND.store self))).
    { rewrite <- Hvals. apply (in_map snd) in Hin. exact Hin. }
    destruct (Forall2_In_right _ _ _ _ _ _ F Hin) as ([kn v'] & _ & _ & Hr).
    cbn [fst snd] in Hr. apply built_recorded in Hr as [Hg _].
    destruct (given_insertable nf pairs k0 Hf Hg) as (H1 & H2 & H3).
    unfold insertable. cbn [fst snd]. rewrite H1, H2, H3, (Hfn v Hv).
    reflexivity. }
  exists (built nf dvf pairs'), its. split; [|split; [|split]].
  - unfold ND.map_values, ND.bind, ND.read, ND.lift. rewrite Ei.
    rewrite comprehension_returns. fold pairs'. cbn [ND.normalize_fn].
    rewrite Hnf. unfold self at 1 2. unfold built at 1 2.
    rewrite (init_returns pairs' nf _ Hins).
    replace (ND.default_value_fn (inserted_all pairs (ND.empty nf dvf)))
      with dvf; [reflexivity|].
    clear. induction pairs as [|[k v] l IH] using rev_ind; [reflexivity|].
    rewrite inserted_all_snoc. exact IH.
  - rewrite (built_store_distinct nf dvf pairs' Hnd). unfold pairs'.
    rewrite map_map. cbn [fst snd]. clear Ei Hvals Hfn Hkeys Hnd Hins.
    induction F as [|[kn v] [k v'] st its' [Hv Hr] _ IH]; [reflexivity|].
    cbn [map fst snd] in *. apply built_recorded in Hr as [_ ->].
    rewrite Hv, IH. reflexivity.
  - exact Ei.
  - unfold ND.keys, ND.bind, ND.read, ND.ret.
    rewrite built_keys_distinct.
    + unfold pairs'. rewrite map_map. reflexivity.
    + apply (NoDup_map_inv_fst nf). rewrite map_map. exact Hnd.
Qed.

Lemma constructed_map_values_witness :
  exists r its,
    ND.map_values (fun v => PyTuple [v]) example_three_spellings
    = (Ok r, example_three_spellings)
    /\ ND.store r
       = map (fun kv => (fst kv, PyTuple [snd kv]))
           (ND.store example_three_spellings)
    /\ ND.items example_three_spellings
       = (Ok (map Ok its), example_three_spellings)
    /\ ND.keys r = (Ok (map fst its), r).
Proof.
  exact (constructed_map_values three_spellings normalize None
           example_three_spellings (fun v => PyTuple [v]) eq_refl
           (fun v _ => eq_refl)).
Defined.

(** ** update and from_dict *)

Lemma update_pairs_app p1 p2 (self : ND.t) :
  ND.update_pairs (p1 ++ p2) self
  = ND.bind (ND.update_pairs p1) (fun _ => ND.update_pairs p2) self.
Proof.
  revert self. induction p1 as [|[k v] p1 IH]; intros self; [reflexivity|].
  cbn [app ND.update_pairs].
  change (ND.bind (ND.__setitem__ k v) (fun _ => ND.update_pairs (p1 ++ p2)) self
          = ND.bind (ND.bind (ND.__setitem__ k v) (fun _ => ND.update_pairs p1))
              (fun _ => ND.update_pairs p2) self).
  unfold ND.bind.
  destruct (ND.__setitem__ k v self) as [[[]|e] self1]; [|reflexivity].
  rewrite IH. reflexivity.
Qed.

(** X17.  Constructing a container from pairs and then updating it with
    the pairs of a dict gives what the constructor gives for the first
    pairs followed by the second, and raises what it raises. *)
Theorem update_after_init p1 p2 nf dvf (self : ND.t) :
  ND.__init__ p1 nf dvf = Ok self ->
  ND.__init__ (p1 ++ p2) nf dvf
  = match ND.update p2 self with
    | (Ok _, self') => Ok self'
    | (Raise e, _) => Raise e
    end.
Proof.
  unfold ND.__init__, ND.update. rewrite update_pairs_app. unfold ND.bind.
  destruct (ND.update_pairs p1 (ND.empty nf dvf)) as [[[]|e] self1];
    [|discriminate].
  intros [= ->]. reflexivity.
Qed.

Lemma update_after_init_witness :
  ND.__init__ ([(PyStr "hla-a", PyInt 1); (PyStr "HLA_A", PyInt 2)]
               ++ [(PyStr "hla a", PyInt 3)]) normalize None
  = match ND.update [(PyStr "hla a", PyInt 3)] example_two_spellings with
    | (Ok _, self') => Ok self'
    | (Raise e, _) => Raise e
    end.
Proof.
  exact (update_after_init [(PyStr "hla-a", PyInt 1); (PyStr "HLA_A", PyInt 2)]
           [(PyStr "hla a", PyInt 3)] normalize None example_two_spellings
           eq_refl).
Defined.

Lemma inserted_all_nonempty pairs (self : ND.t) :
  pairs <> [] ->
  ND.store (inserted_all pairs self) <> []
  /\ ND.original_to_normalized_key_dict (inserted_all pairs self) <> []
  /\ ND.normalized_to_original_keys_dict (inserted_all pairs self) <> [].
Proof.
  intros H. destruct (exists_last H) as (l & [k v] & ->).
  rewrite inserted_all_snoc. cbn. repeat split; apply dict_set_nonempty.
Qed.

Lemma from_dict_checks_pass (d : dict pyval) (r : ND.t) :
  (d <> [] ->
   ND.store r <> []
   /\ ND.original_to_normalized_key_dict r <> []
   /\ ND.normalized_to_original_keys_dict r <> []) ->
  ND.from_dict_checks d r = (Ok tt, r).
Proof.
  destruct r as [st o2n n2o nf dvf]. cbn [ND.store
    ND.original_to_normalized_key_dict ND.normalized_to_original_keys_dict].
  destruct d as [|p d]; [reflexivity|].
  intros H. destruct H as (H1 & H2 & H3); [discriminate|].
  destruct st; [congruence|]. destruct o2n; [congruence|].
  destruct n2o; [congruence|]. reflexivity.
Qed.

(** X18.  [from_dict] returns what the constructor returns for the pairs
    of the dict, and raises what it raises: the four assertions it makes
    on a non-empty dict never fail. *)
Theorem from_dict_is_init (d : dict pyval) nf dvf :
  ND.from_dict d nf dvf = ND.__init__ d nf dvf.
Proof.
  unfold ND.from_dict.
  destruct (ND.__init__ d nf dvf) as [self|e] eqn:E; [|reflexivity].
  cbn [rbind]. apply init_ok_inv in E as [_ ->].
  rewrite from_dict_checks_pass; [reflexivity|].
  apply inserted_all_nonempty.
Qed.

(** ** invert as a reverse lookup *)

(** The instance in which [x] has been filed under the element [vi]. *)
Lemma getitem_add_ok (res res' : ND.t) (vi k : pyval) :
  ND.default_value_fn res = Some ND.py_set ->
  ND.getitem_add vi k res = (Ok tt, res') ->
  exists xs,
    (dict_get (ND.normalize_fn res vi) (ND.store res) = Some (PySet xs)
     \/ (dict_get (ND.normalize_fn res vi) (ND.store res) = None /\ xs = []))
    /\ res' = ND.mk (dict_set (ND.normalize_fn res vi) (PySet (set_add k xs))
                      (ND.store res))
                (ND.original_to_normalized_key_dict res)
                (ND.normalized_to_original_keys_dict res)
                (ND.normalize_fn res) (ND.default_value_fn res).
Proof.
  intros Hd. unfold ND.getitem_add, ND.bind.
  destruct (hashable (ND.normalize_fn res vi)) eqn:Hh.
  - destruct (dict_get (ND.normalize_fn res vi) (ND.store res)) as [v|] eqn:G.
    + rewrite (getitem_present res vi v Hh G).
      destruct v; try discriminate.
      unfold ND.lift, py_set_add, rbind, ND.read, ND.set_store.
      destruct (check_hashable k); [|discriminate].
      intros [= <-]. exists xs. split; [left|]; reflexivity.
    + assert (Habs : dict_mem (ND.normalize_fn res vi) (ND.store res) = false)
        by (unfold dict_mem; rewrite G; reflexivity).
      rewrite (getitem_absent_factory res vi ND.py_set Hh Habs Hd).
      cbn [ND.py_set]. unfold ND.lift, py_set_add, rbind, ND.read, ND.set_store.
      destruct (check_hashable k); [|discriminate].
      intros [= <-]. exists []. split; [right; split; reflexivity|].
      unfold defaulted. cbn. rewrite dict_set_set. reflexivity.
  - destruct (getitem_unhashable res vi Hh) as [m E]. rewrite E. discriminate.
Qed.

Lemma files_add nf adds (st : dict pyval) (vi k : pyval) (xs : pyset) :
  files nf adds st ->
  dict_get (nf vi) st = Some (PySet xs)
  \/ (dict_get (nf vi) st = None /\ xs = []) ->
  files nf (adds ++ [(vi, k)]) (dict_set (nf vi) (PySet (set_add k xs)) st).
Proof.
  intros F G x. specialize (F x).
  destruct (pyval_eqb (nf vi) x) eqn:E.
  - apply pyval_eqb_eq in E. subst x. rewrite dict_get_set_same.
    destruct G as [G|[G ->]]; rewrite G in F.
    + destruct F as [Hn Hm]. split; [apply set_add_NoDup; exact Hn|].
      intros k'. rewrite set_add_In, Hm. split.
      * intros [->|(vi' & Hin & Hv)].
        -- exists vi. split; [apply in_or_app; right; left|]; reflexivity.
        -- exists vi'. split; [apply in_or_app; left; exact Hin | exact Hv].
      * intros (vi' & Hin & Hv). apply in_app_or in Hin as [Hin|[[= -> ->]|[]]].
        -- right. eauto.
        -- left. reflexivity.
    + split; [apply set_add_NoDup; constructor|].
      intros k'. rewrite set_add_In. simpl. split.
      * intros [->|[]]. exists vi.
        split; [apply in_or_app; right; left|]; reflexivity.
      * intros (vi' & Hin & Hv). apply in_app_or in Hin as [Hin|[[= -> ->]|[]]].
        -- exfalso. exact (F vi' k' Hin Hv).
        -- left. reflexivity.
  - apply pyval_eqb_neq in E. rewrite dict_get_set_other by exact E.
    destruct (dict_get x st) as [[]|]; try exact F.
    + destruct F as [Hn Hm]. split; [exact Hn|]. intros k'. rewrite Hm. split.
      * intros (vi' & Hin & Hv). exists vi'.
        split; [apply in_or_app; left; exact Hin | exact Hv].
      * intros (vi' & Hin & Hv). apply in_app_or in Hin as [Hin|[[= -> ->]|[]]].
        -- eauto.
        -- contradiction.
    + intros vi' k' Hin. apply in_app_or in Hin as [Hin|[[= -> ->]|[]]].
      * apply F with k'. exact Hin.
      * exact E.
Qed.

Lemma add_all_files nf values (k : pyval) adds (res res' : ND.t) :
  filling nf adds res ->
  ND.add_all values k res = (Ok tt, res') ->
  filling nf (adds ++ map (fun vi => (vi, k)) values) res'.
Proof.
  revert adds res. induction values as [|vi values IH]; intros adds res Hf.
  - cbn. intros [= <-]. rewrite app_nil_r. exact Hf.
  - cbn [ND.add_all map]. unfold ND.bind.
    destruct (ND.getitem_add vi k res) as [[[]|e] res1] eqn:E; [|discriminate].
    intros E'. destruct Hf as (Hnf & Hd & F).
    destruct (getitem_add_ok res res1 vi k Hd E) as (xs & G & Er).
    rewrite Hnf in G, Er.
    replace (adds ++ (vi, k) :: map (fun vi0 => (vi0, k)) values)%list
      with ((adds ++ [(vi, k)]) ++ map (fun vi0 => (vi0, k)) values)%list
      by (rewrite <- app_assoc; reflexivity).
    apply (IH (adds ++ [(vi, k)])%list res1); [|exact E'].
    subst res1. split; [reflexivity|]. split; [exact Hd|].
    cbn [ND.store]. apply files_add; assumption.
Qed.

Lemma invert_loop_files nf stream adds (res res' : ND.t) :
  filling nf adds res ->
  ND.invert_loop stream res = (Ok tt, res') ->
  exists its,
    stream = map Ok its /\ filling nf (adds ++ additions its) res'.
Proof.
  revert adds res. induction stream as [|[[k v]|e] stream IH]; intros adds res Hf.
  - cbn. intros [= <-]. exists []. split; [reflexivity|].
    unfold additions. cbn. rewrite app_nil_r. exact Hf.
  - cbn [ND.invert_loop]. unfold ND.bind.
    destruct (ND.add_all (ND.values_of v) k res) as [[[]|e] res1] eqn:E;
      [|discriminate].
    intros E'. pose proof (add_all_files nf _ k adds res res1 Hf E) as Hf1.
    destruct (IH _ _ Hf1 E') as (its & -> & Hf2).
    exists ((k, v) :: its). split; [reflexivity|].
    unfold additions in *. cbn [flat_map fst snd].
    rewrite app_assoc. exact Hf2.
  - cbn. discriminate.
Qed.

Lemma additions_entry nf its (k x : pyval) :
  (exists vi, In (vi, k) (additions its) /\ nf vi = x)
  <-> inverse_entry nf its k x.
Proof.
  unfold additions, inverse_entry. split.
  - intros (vi & Hin & Hv). apply in_flat_map in Hin as ([k0 v] & Hi & Hm).
    cbn [fst snd] in Hm. apply in_map_iff in Hm as (vi' & [= -> ->] & Hvi).
    exists v, vi. auto.
  - intros (v & vi & Hi & Hvi & Hv). exists vi. split; [|exact Hv].
    apply in_flat_map. exists (k, v). split; [exact Hi|].
    cbn [fst snd]. apply in_map_iff. exists vi. auto.
Qed.

(** X19.  When [invert] returns, the items of the receiver were iterated
    without an error, and the container returned is the reverse lookup
    table of those items: [get] finds under a key the set, without
    repetition, of the item keys whose value (or an element of whose list,
    tuple or set value) has the normalized form of that key, and finds
    nothing when there is none. *)
Theorem invert_is_reverse_lookup (self r : ND.t) :
  fst (ND.invert self) = Ok r ->
  exists its,
    fst (ND.items self) = Ok (map Ok its)
    /\ forall y,
         hashable (ND.normalize_fn self y) = true ->
         match fst (ND.get y None r) with
         | Ok (Some (PySet ks)) =>
             NoDup ks
             /\ forall k, In k ks
                          <-> inverse_entry (ND.normalize_fn self) its k
                                (ND.normalize_fn self y)
         | Ok (Some _) => False
         | Ok None =>
             forall k, ~ inverse_entry (ND.normalize_fn self) its k
                           (ND.normalize_fn self y)
         | Raise _ => False
         end.
Proof.
  intros Hinv.
  unfold ND.invert, ND.bind, ND.read, ND.lift, ND.__init__ in Hinv.
  simpl in Hinv.
  destruct (ND.items self) as [[stream|e] self1]; [|discriminate].
  destruct (ND.invert_loop stream _) as [[[]|e] r'] eqn:E; [|discriminate].
  cbn in Hinv. injection Hinv as ->.
  assert (Hf : filling (ND.normalize_fn self) []
                 (ND.empty (ND.normalize_fn self) (Some ND.py_set))).
  { repeat split. intros x. cbn. intros vi k []. }
  destruct (invert_loop_files _ _ _ _ _ Hf E) as (its & -> & Hnf & _ & F).
  exists its. split; [reflexivity|]. intros y Hy.
  rewrite get_returns, Hnf, (check_hashable_ok _ Hy). cbn [fst rbind].
  specialize (F (ND.normalize_fn self y)). cbn [app] in F.
  destruct (dict_get (ND.normalize_fn self y) (ND.store r)) as [[]|];
    try exact F.
  - destruct F as [Hn Hm]. split; [exact Hn|]. intros k.
    rewrite Hm. apply additions_entry.
  - intros k C. apply additions_entry in C as (vi & Hin & Hv).
    exact (F vi k Hin Hv).
Qed.

Lemma invert_is_reverse_lookup_witness :
  exists its,
    fst (ND.items example_table) = Ok (map Ok its)
    /\ forall y,
         hashable (normalize y) = true ->
         match fst (ND.get y None example_inverted) with
         | Ok (Some (PySet ks)) =>
             NoDup ks
             /\ forall k, In k ks
                          <-> inverse_entry normalize its k (normalize y)
         | Ok (Some _) => False
         | Ok None => forall k, ~ inverse_entry normalize its k (normalize y)
         | Raise _ => False
         end.
Proof.
  exact (invert_is_reverse_lookup example_table example_inverted eq_refl).
Defined.

Lemma getitem_add_returns nf adds (res : ND.t) (vi k : pyval) :
  filling nf adds res ->
  hashable (nf vi) = true -> hashable k = true ->
  exists res', ND.getitem_add vi k res = (Ok tt, res').
Proof.
  intros (Hnf & Hd & F) Hv Hk. subst nf.
  unfold ND.getitem_add, ND.bind.
  destruct (dict_get (ND.normalize_fn res vi) (ND.store res)) as [v|] eqn:G.
  - rewrite (getitem_present res vi v Hv G).
    specialize (F (ND.normalize_fn res vi)).
    rewrite G in F. destruct v; try contradiction.
    unfold ND.lift, py_set_add, rbind, ND.read, ND.set_store.
    rewrite (check_hashable_ok _ Hk). eauto.
  - assert (Habs : dict_mem (ND.normalize_fn res vi) (ND.store res) = false)
      by (unfold dict_mem; rewrite G; reflexivity).
    rewrite (getitem_absent_factory res vi ND.py_set Hv Habs Hd).
    cbn [ND.py_set]. unfold ND.lift, py_set_add, rbind, ND.read, ND.set_store.
    rewrite (check_hashable_ok _ Hk). eauto.
Qed.

Lemma add_all_returns nf values (k : pyval) adds (res : ND.t) :
  filling nf adds res ->
  forallb (fun vi => hashable (nf vi)) values = true -> hashable k = true ->
  exists res', ND.add_all values k res = (Ok tt, res').
Proof.
  revert adds res. induction values as [|vi values IH]; intros adds res Hf Hv Hk.
  - exists res. reflexivity.
  - cbn [forallb] in Hv. apply andb_true_iff in Hv as [Hvi Hvs].
    destruct (getitem_add_returns nf adds res vi k Hf Hvi Hk) as [res1 E].
    assert (Hf1 : filling nf (adds ++ map (fun vi => (vi, k)) [vi]) res1).
    { apply (add_all_files nf [vi] k adds res res1 Hf).
      cbn [ND.add_all]. unfold ND.bind. rewrite E. reflexivity. }
    destruct (IH _ _ Hf1 Hvs Hk) as [res' E'].
    exists res'. cbn [ND.add_all]. unfold ND.bind. rewrite E. exact E'.
Qed.

Lemma invert_loop_returns nf its adds (res : ND.t) :
  filling nf adds res ->
  forallb (fun kv => hashable (fst kv)
                     && forallb (fun vi => hashable (nf vi))
                          (ND.values_of (snd kv))) its = true ->
  exists res', ND.invert_loop (map Ok its) res = (Ok tt, res').
Proof.
  revert adds res. induction its as [|[k v] its IH]; intros adds res Hf H.
  - exists res. reflexivity.
  - cbn [forallb fst snd] in H. rewrite !andb_true_iff in H.
    destruct H as [[Hk Hv] Hits].
    destruct (add_all_returns nf _ k adds res Hf Hv Hk) as [res1 E].
    pose proof (add_all_files nf _ k adds res res1 Hf E) as Hf1.
    destruct (IH _ _ Hf1 Hits) as [res' E'].
    exists res'. cbn [map ND.invert_loop]. unfold ND.bind. rewrite E. exact E'.
Qed.

(** X20.  On a container returned by the constructor, [invert] returns
    and leaves the receiver as it was, provided that each stored value
    (or, for a list, tuple or set, each of its elements) has a hashable
    normalized form. *)
Theorem constructed_invert_returns pairs nf dvf (self : ND.t) :
  ND.__init__ pairs nf dvf = Ok self ->
  forallb (fun v => forallb (fun vi => hashable (nf vi)) (ND.values_of v))
    (dict_values (ND.store self)) = true ->
  exists r, ND.invert self = (Ok r, self).
Proof.
  intros E Hv. destruct (constructed_items_return _ _ _ _ E) as (its & Ei & F).
  pose proof (item_of_values _ _ _ F) as Hvals.
  apply init_built in E as (-> & Hnf & Hf).
  assert (Hits : forallb (fun kv => hashable (fst kv)
                   && forallb (fun vi => hashable (nf vi))
                        (ND.values_of (snd kv))) its = true).
  { apply forallb_forall. intros [k v] Hin. cbn [fst snd].
    apply andb_true_iff. split.
    - destruct (Forall2_In_right _ _ _ _ _ _ F Hin) as ([kn v'] & _ & _ & Hr).
      cbn [fst snd] in Hr. apply built_recorded in Hr as [Hg _].
      apply (given_insertable nf pairs k Hf Hg).
    - rewrite forallb_forall in Hv. apply Hv. rewrite <- Hvals.
      apply (in_map snd) in Hin. exact Hin. }
  assert (Hfill : filling nf [] (ND.empty nf (Some ND.py_set))).
  { repeat split. intros x. cbn. intros vi k []. }
  destruct (invert_loop_returns nf its [] _ Hfill Hits) as [r Er].
  exists r. unfold ND.invert, ND.bind, ND.read, ND.lift, ND.__init__.
  cbn [ND.update_pairs ND.ret]. rewrite Hnf, Ei, Er. reflexivity.
Qed.

Lemma constructed_invert_returns_witness :
  exists r, ND.invert example_three_spellings = (Ok r, example_three_spellings).
Proof.
  exact (constructed_invert_returns three_spellings normalize None
           example_three_spellings eq_refl eq_refl).
Defined.

(** ** Allele groups *)

Lemma string_app_empty (s : string) : s ++ EmptyString = s.
Proof. induction s as [|a s IH]; simpl; [|rewrite IH]; reflexivity. Qed.

(** X21.  The normalized string of an allele group is the normalized
    string of its locus, an asterisk and the group identifier, whatever
    characters these hold, and it raises what the rendering of the locus
    raises. *)
Theorem allele_group_normalized_string (self : AlleleGroup.t)
    (include_species : bool) :
  AlleleGroup.normalized_string self include_species
  = rbind (Locus.normalized_string (AlleleGroup.as_locus self) include_species)
      (fun locus => Ok (locus ++ "*" ++ AlleleGroup.group_id self)).
Proof.
  unfold AlleleGroup.normalized_string. cbn [Locus.call].
  destruct (Locus.normalized_string (AlleleGroup.as_locus self) include_species)
    as [locus|e]; [|reflexivity].
  cbn. rewrite string_app_empty. reflexivity.
Qed.

(** ** map_keys *)

Lemma comprehension_ok_inv (A B : Type) (f : A -> B) stream (l : list B) :
  ND.comprehension f stream = Ok l ->
  exists xs, stream = map Ok xs /\ l = map f xs.
Proof.
  revert l. induction stream as [|[x|e] stream IH]; intros l.
  - intros [= <-]. exists []. split; reflexivity.
  - cbn [ND.comprehension].
    destruct (ND.comprehension f stream) as [ys|e]; [|discriminate].
    intros [= <-]. destruct (IH ys eq_refl) as (xs & -> & ->).
    exists (x :: xs). split; reflexivity.
  - discriminate.
Qed.

Lemma defaultdict_getitem_keeps_normalize_fn (k : pyval) (self : ND.t) :
  ND.normalize_fn (snd (ND.defaultdict_getitem k self)) = ND.normalize_fn self.
Proof.
  run_method. destruct (check_hashable k); [|reflexivity].
  destruct (dict_get k (ND.normalized_to_original_keys_dict self)); reflexivity.
Qed.

Lemma key_sets_keep_normalize_fn (keys : list pyval) (self : ND.t) :
  ND.normalize_fn (snd (ND.mapM ND.defaultdict_getitem keys self))
  = ND.normalize_fn self.
Proof.
  revert self. induction keys as [|k keys IH]; intros self; [reflexivity|].
  cbn [ND.mapM]. unfold ND.bind at 1.
  pose proof (defaultdict_getitem_keeps_normalize_fn k self) as H1.
  destruct (ND.defaultdict_getitem k self) as [[ks|e] self1]; [|exact H1].
  cbn [snd] in H1. unfold ND.bind.
  pose proof (IH self1) as H2.
  destruct (ND.mapM ND.defaultdict_getitem keys self1) as [[l|e] self2];
    unfold ND.ret; cbn [snd] in *; congruence.
Qed.

Lemma items_keeps_normalize_fn (self : ND.t) :
  ND.normalize_fn (snd (ND.items self)) = ND.normalize_fn self.
Proof.
  unfold ND.items, ND.keys_aligned_with_values,
    ND.key_sets_aligned_with_values, ND.normalized_keys, ND.values,
    ND.bind, ND.read, ND.ret.
  pose proof (key_sets_keep_normalize_fn (dict_keys (ND.store self)) self) as H.
  destruct (ND.mapM ND.defaultdict_getitem (dict_keys (ND.store self)) self)
    as [[l|e] self1]; exact H.
Qed.

(** X22.  When [map_keys(fn)] returns, the items of the receiver were
    iterated without an error, and in the container returned [get] finds
    for a key the value of the last item whose key [fn] sends to the same
    normalized form: where [fn] merges keys, the later item wins. *)
Theorem map_keys_last_item_wins (self r : ND.t) (fn : pyval -> pyval) :
  fst (ND.map_keys fn self) = Ok r ->
  exists its,
    fst (ND.items self) = Ok (map Ok its)
    /\ forall y fallback,
         hashable (ND.normalize_fn self y) = true ->
         ND.get y fallback r
         = (Ok (match last_value (ND.normalize_fn self) (ND.normalize_fn self y)
                        (map (fun kv => (fn (fst kv), snd kv)) its) with
                | Some v => Some v
                | None => fallback
                end), r).
Proof.
  intros H. unfold ND.map_keys, ND.bind, ND.read, ND.lift in H.
  pose proof (items_keeps_normalize_fn self) as Hk.
  destruct (ND.items self) as [[stream|e] self1]; [|discriminate].
  cbn [snd] in Hk.
  destruct (ND.comprehension _ stream) as [pairs'|e] eqn:Ec; [|discriminate].
  cbn [fst] in H. rewrite Hk in H.
  destruct (comprehension_ok_inv _ _ _ _ _ Ec) as (its & -> & ->).
  apply init_built in H as (-> & Hnf & _).
  exists its. split; [reflexivity|]. intros y fallback Hy.
  rewrite get_returns, Hnf, (check_hashable_ok _ Hy), built_store_get.
  reflexivity.
Qed.

Lemma map_keys_last_item_wins_witness :
  exists its,
    fst (ND.items example_three_spellings) = Ok (map Ok its)
    /\ forall y fallback,
         hashable (normalize y) = true ->
         ND.get y fallback example_merged
         = (Ok (match last_value normalize (normalize y)
                        (map (fun kv => (PyStr "x", snd kv)) its) with
                | Some v => Some v
                | None => fallback
                end), example_merged).
Proof.
  exact (map_keys_last_item_wins example_three_spellings example_merged
           (fun _ => PyStr "x") eq_refl).
Defined.

(** ** Insertion under the default normalizer, and one that is cut short *)

Lemma normalize_hashable (v : pyval) : hashable (normalize v) = hashable v.
Proof. destruct v; reflexivity. Qed.

(** X23.  With the default normalizer an insertion returns exactly when
    neither the key nor the value is [None] and the key is hashable. *)
Theorem setitem_default_normalizer (self : ND.t) (k v : pyval) :
  ND.normalize_fn self = normalize ->
  (fst (ND.__setitem__ k v self) = Ok tt
   <-> is_not_None k && is_not_None v && hashable k = true).
Proof.
  intros Hnf.
  destruct (setitem_cases self k v) as [[Hi E]|[Hi (e & s & E & _)]];
    rewrite E; unfold insertable in Hi; cbn [fst snd] in *;
    rewrite Hnf, normalize_hashable in Hi.
  - rewrite andb_true_iff in Hi. destruct Hi as [Hi _]. rewrite Hi. tauto.
  - split; [discriminate|]. intros H. rewrite H in Hi.
    rewrite andb_true_iff in H. destruct H as [_ H]. rewrite H in Hi.
    discriminate.
Qed.

Lemma setitem_default_normalizer_witness :
  fst (ND.__setitem__ (PyTuple [PyStr "hla-a"; PyInt 2]) (PyInt 1) example_table)
  = Ok tt.
Proof.
  apply (setitem_default_normalizer example_table
           (PyTuple [PyStr "hla-a"; PyInt 2]) (PyInt 1) eq_refl).
  reflexivity.
Defined.

(** X24.  An insertion is not all or nothing: when the key is hashable but
    its normalized form is not, [__setitem__] raises [TypeError] after it
    has recorded the key, so that the key is among [keys()] while the
    store and the sets of original keys are as they were. *)
Theorem setitem_cut_short (self : ND.t) (k v : pyval) :
  is_not_None k = true -> is_not_None v = true ->
  hashable k = true -> hashable (ND.normalize_fn self k) = false ->
  exists msg self' ks,
    ND.__setitem__ k v self = (Raise (TypeError msg), self')
    /\ ND.keys self' = (Ok ks, self') /\ In k ks
    /\ ND.store self' = ND.store self
    /\ ND.normalized_to_original_keys_dict self'
       = ND.normalized_to_original_keys_dict self.
Proof.
  intros Hk Hv Hh Hn.
  destruct (check_hashable_cases (ND.normalize_fn self k))
    as [[C _]|[_ [m En]]]; [congruence|].
  exists m. run_method. rewrite Hk, Hv, (check_hashable_ok _ Hh), En.
  do 2 eexists. split; [reflexivity|].
  split; [reflexivity|]. split; [|split; reflexivity].
  cbn. apply dict_keys_set_iff. left. reflexivity.
Qed.

Lemma setitem_cut_short_witness :
  exists msg self' ks,
    ND.__setitem__ (PyStr "hla-a") (PyInt 1)
      (ND.empty (fun k => PyList [k]) None)
    = (Raise (TypeError msg), self')
    /\ ND.keys self' = (Ok ks, self') /\ In (PyStr "hla-a") ks
    /\ ND.store self' = []
    /\ ND.normalized_to_original_keys_dict self' = [].
Proof.
  exact (setitem_cut_short (ND.empty (fun k => PyList [k]) None)
           (PyStr "hla-a") (PyInt 1) eq_refl eq_refl eq_refl eq_refl).
Defined.
